(** * Hibiki chat: memory-augmented two-stage generation pipeline (app4.py)

    A shallow embedding of the LangGraph pipeline of [app4.py]: the three
    node functions [retrieve_memory_node], [prompt_guidance_node] and
    [chat_by_llm1_node], the graph assembled by [build_graph], and the
    chat-input handler at the module's top level.

    Modelling choices.
    - Python values are [pyval]s; a Python [str] is a [string] holding the
      UTF-8 bytes of the text.  A [dict] that the code only reads by key and
      merges (the graph state) is a [gmap string string]; a [dict] whose
      order shows in [str(r)] is an association list.
    - The search tool, the manage tool and the chat model are outside the
      program: [Services] gives their answers, which may depend on all that
      happened before and may be an exception.  The search tool is taken to
      return a list.
    - Exceptions and the mutable objects of the session are threaded by
      the monad [M]; a raise keeps the effects made before it.
    - The compiled graph runs its nodes one after the other along the
      edges, merging each node's update into the state key by key.
    - Sampling temperatures are the decimal literals of the source, as
      rationals. *)

From Stdlib Require Import Ascii String QArith.
From stdpp Require Import base strings list gmap pretty.

Open Scope string_scope.
Open Scope list_scope.
Set Warnings "-register-all".

(** ** Python values and their textual representation *)

Module Py.

(** The records a memory search may hand back: JSON-like Python values.
    A [PyDict] keeps its items in insertion order. *)
Inductive pyval : Type :=
  | PyNone
  | PyBool (b : bool)
  | PyInt (z : Z)
  | PyStr (s : string)
  | PyList (l : list pyval)
  | PyDict (d : list (string * pyval)).

(** The exceptions ([Exception] subclasses) that occur in the program.
    [External] stands for whatever a store or a provider raises. *)
Inductive exn : Type :=
  | TypeError
  | KeyError
  | NameError
  | GraphRecursionError
  | External (name : string).

Inductive result (A : Type) : Type :=
  | Ok (a : A)
  | Raise (e : exn).
Arguments Ok {A} a.
Arguments Raise {A} e.

Definition nl : string := String "010"%char "".
Definition dquote : ascii := "034"%char.

(** [sep.join(l)] on a list of [str]. *)
Definition join (sep : string) (l : list string) : string := String.concat sep l.

(** [sub in s] on two [str]: [sub] occurs in [s]. *)
Fixpoint str_contains (sub s : string) : bool :=
  String.prefix sub s ||
  match s with
  | EmptyString => false
  | String _ s' => str_contains sub s'
  end.

Fixpoint str_has (c : ascii) (s : string) : bool :=
  match s with
  | EmptyString => false
  | String a s' => Ascii.eqb a c || str_has c s'
  end.

Definition hex_digit (n : N) : ascii :=
  Ascii.ascii_of_N (if (n <? 10)%N then 48 + n else 87 + n)%N.

(** One character of [repr(s)].  Bytes from 128 up belong to code points
    outside ASCII, which are taken to be printable and are copied. *)
Definition repr_char (quote : ascii) (c : ascii) : string :=
  let n := Ascii.N_of_ascii c in
  if Ascii.eqb c "\"%char then "\\"
  else if Ascii.eqb c quote then String "\"%char (String c "")
  else if (n =? 9)%N then "\t"
  else if (n =? 10)%N then "\n"
  else if (n =? 13)%N then "\r"
  else if ((n <? 32)%N || (n =? 127)%N)%bool then
    String "\"%char (String "x"%char
      (String (hex_digit (n / 16)) (String (hex_digit (n mod 16)) "")))
  else String c "".

Fixpoint repr_chars (quote : ascii) (s : string) : string :=
  match s with
  | EmptyString => ""
  | String c s' => repr_char quote c +:+ repr_chars quote s'
  end.

(** [repr(s)] of a [str]: single quotes, unless [s] has a single quote and
    no double quote. *)
Definition repr_str (s : string) : string :=
  let quote : ascii :=
    if (str_has "'"%char s && negb (str_has dquote s))%bool
    then dquote else "'"%char in
  String quote (repr_chars quote s +:+ String quote "").

(** [repr(v)]. *)
Fixpoint repr (v : pyval) : string :=
  match v with
  | PyNone => "None"
  | PyBool true => "True"
  | PyBool false => "False"
  | PyInt z => pretty z
  | PyStr s => repr_str s
  | PyList l => "[" +:+ join ", " (map repr l) +:+ "]"
  | PyDict d =>
      "{" +:+ join ", " (map (fun kv => repr_str kv.1 +:+ ": " +:+ repr kv.2) d) +:+ "}"
  end.

(** [str(v)]: the text itself for a [str], [repr(v)] otherwise. *)
Definition str (v : pyval) : string :=
  match v with
  | PyStr s => s
  | _ => repr v
  end.

(** [d[k]] on the items of a [dict] with string keys. *)
Fixpoint dict_get (k : string) (d : list (string * pyval)) : option pyval :=
  match d with
  | [] => None
  | (k', v) :: d' => if String.eqb k' k then Some v else dict_get k d'
  end.

Definition is_str (k : string) (v : pyval) : bool :=
  match v with
  | PyStr s => String.eqb s k
  | _ => false
  end.

(** [k in v] for a [str] k: key test on a [dict], substring test on a
    [str], element test on a [list]; [TypeError] on what is not iterable. *)
Definition contains (k : string) (v : pyval) : result bool :=
  match v with
  | PyDict d => Ok (bool_decide (is_Some (dict_get k d)))
  | PyStr s => Ok (str_contains k s)
  | PyList l => Ok (existsb (is_str k) l)
  | PyNone | PyBool _ | PyInt _ => Raise TypeError
  end.

(** [v[k]] for a [str] k: the item of a [dict], [KeyError] when absent;
    [TypeError] on every other value (a [str] or [list] wants an integer
    index, the rest cannot be subscripted). *)
Definition getitem (v : pyval) (k : string) : result pyval :=
  match v with
  | PyDict d =>
      match dict_get k d with
      | Some x => Ok x
      | None => Raise KeyError
      end
  | _ => Raise TypeError
  end.

(** [isinstance(v, dict)]. *)
Definition is_dict (v : pyval) : bool :=
  match v with
  | PyDict _ => true
  | _ => false
  end.

(** [sep.join(l)] on arbitrary items: [TypeError] unless all are [str]. *)
Fixpoint join_values_items (l : list pyval) : result (list string) :=
  match l with
  | [] => Ok []
  | PyStr s :: l' =>
      match join_values_items l' with
      | Ok ss => Ok (s :: ss)
      | Raise e => Raise e
      end
  | _ :: _ => Raise TypeError
  end.

Definition join_values (sep : string) (l : list pyval) : result string :=
  match join_values_items l with
  | Ok ss => Ok (join sep ss)
  | Raise e => Raise e
  end.

(** Truth value of a [str]. *)
Definition truthy (s : string) : bool :=
  match s with
  | EmptyString => false
  | String _ _ => true
  end.

End Py.
Import Py.

#[global] Instance result_ret : MRet result := fun A a => Ok a.
#[global] Instance result_bind : MBind result := fun A B f m =>
  match m with
  | Ok a => f a
  | Raise e => Raise e
  end.

(** ** The session: mutable objects and external services *)

Inductive Message : Type :=
  | HumanMessage (content : string)
  | AIMessage (content : string).

(** [ChatOpenAI(model=..., temperature=...)]. *)
Record ChatOpenAI : Type := { model : string; temperature : Q }.

Record LLMCall : Type := { llm : ChatOpenAI; prompt : string; answer : result string }.

(** An invocation of one of the two memory tools, with how it ended. *)
Inductive StoreCall : Type :=
  | Search (query : string) (found : result (list pyval))
  | Create (content : string) (failure : option exn).

(** What the script draws on the page. *)
Inductive UIEvent : Type :=
  | ChatMessage (avatar text : string)
  | StError (e : exn)
  | StMarkdown (text : string)
  | StCode (text : string).

(** A LangGraph state: the channels that hold a value. *)
Abbreviation GraphState := (gmap string string).

(** Everything a turn can change.  [messages] and [debug_search_results]
    live in [st.session_state]; [memories] are the contents created through
    the manage tool; [var_result] and [var_reply] are the script's names
    [result] and [reply]; [ui] is the page.  [llm_calls], [store_calls] and
    [node_trace] are the history: the provider invocations, the tool
    invocations, and the nodes the graph ran with the state each received. *)
Record World : Type := {
  messages : list Message;
  debug_search_results : option (list pyval);
  memories : list string;
  var_result : option GraphState;
  var_reply : option string;
  ui : list UIEvent;
  llm_calls : list LLMCall;
  store_calls : list StoreCall;
  node_trace : list (string * GraphState)
}.

Definition with_messages (f : list Message -> list Message) (w : World) : World :=
  {| messages := f (messages w); debug_search_results := debug_search_results w;
     memories := memories w; var_result := var_result w; var_reply := var_reply w;
     ui := ui w; llm_calls := llm_calls w; store_calls := store_calls w;
     node_trace := node_trace w |}.

Definition with_debug_search_results (v : option (list pyval)) (w : World) : World :=
  {| messages := messages w; debug_search_results := v;
     memories := memories w; var_result := var_result w; var_reply := var_reply w;
     ui := ui w; llm_calls := llm_calls w; store_calls := store_calls w;
     node_trace := node_trace w |}.

Definition with_memories (f : list string -> list string) (w : World) : World :=
  {| messages := messages w; debug_search_results := debug_search_results w;
     memories := f (memories w); var_result := var_result w; var_reply := var_reply w;
     ui := ui w; llm_calls := llm_calls w; store_calls := store_calls w;
     node_trace := node_trace w |}.

Definition with_var_result (v : option GraphState) (w : World) : World :=
  {| messages := messages w; debug_search_results := debug_search_results w;
     memories := memories w; var_result := v; var_reply := var_reply w;
     ui := ui w; llm_calls := llm_calls w; store_calls := store_calls w;
     node_trace := node_trace w |}.

Definition with_var_reply (v : option string) (w : World) : World :=
  {| messages := messages w; debug_search_results := debug_search_results w;
     memories := memories w; var_result := var_result w; var_reply := v;
     ui := ui w; llm_calls := llm_calls w; store_calls := store_calls w;
     node_trace := node_trace w |}.

Definition with_ui (f : list UIEvent -> list UIEvent) (w : World) : World :=
  {| messages := messages w; debug_search_results := debug_search_results w;
     memories := memories w; var_result := var_result w; var_reply := var_reply w;
     ui := f (ui w); llm_calls := llm_calls w; store_calls := store_calls w;
     node_trace := node_trace w |}.

Definition with_llm_calls (f : list LLMCall -> list LLMCall) (w : World) : World :=
  {| messages := messages w; debug_search_results := debug_search_results w;
     memories := memories w; var_result := var_result w; var_reply := var_reply w;
     ui := ui w; llm_calls := f (llm_calls w); store_calls := store_calls w;
     node_trace := node_trace w |}.

Definition with_store_calls (f : list StoreCall -> list StoreCall) (w : World) : World :=
  {| messages := messages w; debug_search_results := debug_search_results w;
     memories := memories w; var_result := var_result w; var_reply := var_reply w;
     ui := ui w; llm_calls := llm_calls w; store_calls := f (store_calls w);
     node_trace := node_trace w |}.

Definition with_node_trace
    (f : list (string * GraphState) -> list (string * GraphState)) (w : World) : World :=
  {| messages := messages w; debug_search_results := debug_search_results w;
     memories := memories w; var_result := var_result w; var_reply := var_reply w;
     ui := ui w; llm_calls := llm_calls w; store_calls := store_calls w;
     node_trace := f (node_trace w) |}.

(** The external collaborators: the search tool, the manage tool's create
    action and the completion provider.  Each answers from the whole
    history, and each may raise. *)
Record Services : Type := {
  search_memory : World -> string -> result (list pyval);
  create_memory : World -> string -> option exn;
  complete : World -> ChatOpenAI -> string -> result string
}.

(** ** State and exceptions *)

Definition M (A : Type) : Type := World -> result A * World.

#[global] Instance M_ret : MRet M := fun A a w => (Ok a, w).
#[global] Instance M_bind : MBind M := fun A B f m w =>
  match m w with
  | (Ok a, w') => f a w'
  | (Raise e, w') => (Raise e, w')
  end.

Definition raise {A : Type} (e : exn) : M A := fun w => (Raise e, w).

Definition lift {A : Type} (r : result A) : M A := fun w => (r, w).

Definition modify (f : World -> World) : M unit := fun w => (Ok tt, f w).

(** [try: body  except (e1, e2, ...): handler], [catches] telling the
    exceptions the clause names. *)
Definition try_except {A : Type} (body : M A) (catches : exn -> bool)
    (handler : exn -> M A) : M A := fun w =>
  match body w with
  | (Raise e, w') => if catches e then handler e w' else (Raise e, w')
  | r => r
  end.

(** The same on a computation without effects. *)
Definition try_pure {A : Type} (body : result A) (catches : exn -> bool)
    (handler : result A) : result A :=
  match body with
  | Raise e => if catches e then handler else Raise e
  | r => r
  end.

(** [except Exception]. *)
Definition any_Exception (e : exn) : bool := true.

(** [except (TypeError, KeyError)]. *)
Definition TypeError_or_KeyError (e : exn) : bool :=
  match e with
  | TypeError | KeyError => true
  | _ => false
  end.

(** ** Primitive actions on the session *)

Section Pipeline.

Context (svc : Services).

(** [state[k]]. *)
Definition state_get (state : GraphState) (k : string) : M string :=
  match state !! k with
  | Some v => mret v
  | None => raise KeyError
  end.

(** [st.session_state.search_tool.invoke(query)]. *)
Definition search_tool_invoke (query : string) : M (list pyval) := fun w =>
  let found := search_memory svc w query in
  (found, with_store_calls (fun l => l ++ [Search query found]) w).

Definition set_debug_search_results (rs : list pyval) : M unit :=
  modify (with_debug_search_results (Some rs)).

(** [st.session_state.manage_tool.invoke({"content": content, "action": "create"})]:
    the content is stored, unless the store fails. *)
Definition manage_tool_invoke_create (content : string) : M unit := fun w =>
  let failure := create_memory svc w content in
  let w' := with_store_calls (fun l => l ++ [Create content failure]) w in
  match failure with
  | Some e => (Raise e, w')
  | None => (Ok tt, with_memories (fun l => l ++ [content]) w')
  end.

(** [chat.invoke(prompt).content]: the provider answers or raises. *)
Definition llm_invoke (chat : ChatOpenAI) (p : string) : M string := fun w =>
  let a := complete svc w chat p in
  (a, with_llm_calls (fun l => l ++ [{| llm := chat; prompt := p; answer := a |}]) w).

(** ** Node 1: memory retrieval *)

Definition no_memory : string := "関連する記憶はありません。".

(** The condition of the comprehension:
    [isinstance(r, dict) and "value" in r and "content" in r["value"]]. *)
Definition has_nested_content (r : pyval) : result bool :=
  if is_dict r then
    in_r ← contains "value" r;
    if in_r : bool then
      v ← getitem r "value";
      contains "content" v
    else mret false
  else mret false.

(** [[r["value"]["content"] for r in search_results if ...]]. *)
Fixpoint nested_contents (search_results : list pyval) : result (list pyval) :=
  match search_results with
  | [] => mret []
  | r :: rest =>
      keep ← has_nested_content r;
      if keep : bool then
        v ← getitem r "value";
        c ← getitem v "content";
        cs ← nested_contents rest;
        mret (c :: cs)
      else nested_contents rest
  end.

(** The value of [memory_text] after the [if search_results:] block. *)
Definition memory_text_of (search_results : list pyval) : result string :=
  match search_results with
  | [] => mret ""
  | _ :: _ =>
      try_pure
        (cs ← nested_contents search_results; join_values nl cs)
        TypeError_or_KeyError
        (mret (join nl (map str search_results)))
  end.

Definition retrieve_memory_node (state : GraphState) : M GraphState :=
  user_input ← state_get state "input";
  search_results ← search_tool_invoke user_input;
  _ ← set_debug_search_results search_results;
  memory_text ← lift (memory_text_of search_results);
  mret ({[ "input" := user_input;
           "retrieved_memory" := if truthy memory_text then memory_text else no_memory;
           "llm1_prompt_instructions" := "" ]} : GraphState).

(** ** Node 2: the second model writes the instructions *)

Definition guidance_prompt (input retrieved_memory : string) : string :=
  "
ユーザーの発言と記憶をもとに、ひびき（あなた）がユーザーにどのように語りかけ、何を参考にし、LLM1へどのような指示を出すかを考えてください。

### ユーザーの発言:
" +:+
  input +:+
  "

### 関連する記憶:
" +:+
  retrieved_memory +:+
  "

### 出力フォーマット:
1. ユーザーへの語りかけスタイル（例：優しく、元気よく、共感的に）
2. 参考にする過去記憶（要約、または「なし」）
3. LLM1への指示（具体的な応答生成の指針）
".

Definition llm2 : ChatOpenAI := {| model := "gpt-4o"; temperature := 0.3 |}.

Definition prompt_guidance_node (state : GraphState) : M GraphState :=
  input ← state_get state "input";
  retrieved_memory ← state_get state "retrieved_memory";
  response ← llm_invoke llm2 (guidance_prompt input retrieved_memory);
  input' ← state_get state "input";
  retrieved_memory' ← state_get state "retrieved_memory";
  mret ({[ "input" := input';
           "retrieved_memory" := retrieved_memory';
           "llm1_prompt_instructions" := response ]} : GraphState).

(** ** Node 3: the first model answers and the turn is stored *)

Definition chat_prompt (llm1_prompt_instructions retrieved_memory input : string)
    : string :=
  "
あなたは「ひびき」という名前のAIです。以下の人格を一貫して保ってください：
- 優しく、思いやりのある語り口
- ユーザーの気分や好みを覚えて、自然に会話に活かす
- 過去の話題をそっと引き出して繋げる
- 不安や悩みに寄り添う
- 無理に励まさず、今に合わせて話す

### 指示:
" +:+
  llm1_prompt_instructions +:+
  "

### 記憶:
" +:+
  retrieved_memory +:+
  "

### ユーザーの発言:
" +:+
  input +:+
  "

### ひびきの応答:
".

Definition llm1 : ChatOpenAI := {| model := "gpt-4o"; temperature := 0.7 |}.

(** [f"ユーザー: {input}\nひびき: {response}"]. *)
Definition stored_turn (input response : string) : string :=
  "ユーザー: " +:+ input +:+ nl +:+ "ひびき: " +:+ response.

Definition chat_by_llm1_node (state : GraphState) : M GraphState :=
  llm1_prompt_instructions ← state_get state "llm1_prompt_instructions";
  retrieved_memory ← state_get state "retrieved_memory";
  input ← state_get state "input";
  response ← llm_invoke llm1 (chat_prompt llm1_prompt_instructions retrieved_memory input);
  input' ← state_get state "input";
  _ ← manage_tool_invoke_create (stored_turn input' response);
  llm1_prompt_instructions' ← state_get state "llm1_prompt_instructions";
  mret ({[ "response" := response;
           "llm1_prompt_instructions" := llm1_prompt_instructions' ]} : GraphState).

End Pipeline.

(** ** The graph *)

Module Graph.

Definition node_fn : Type := GraphState -> M GraphState.

(** What [StateGraph] collects before [compile()]. *)
Record StateGraph : Type := {
  nodes : list (string * node_fn);
  entry_point : option string;
  edges : list (string * string)
}.

Definition END : string := "__end__".

Definition new : StateGraph :=
  {| nodes := []; entry_point := None; edges := [] |}.

Definition add_node (name : string) (f : node_fn) (b : StateGraph) : StateGraph :=
  {| nodes := nodes b ++ [(name, f)]; entry_point := entry_point b; edges := edges b |}.

Definition set_entry_point (name : string) (b : StateGraph) : StateGraph :=
  {| nodes := nodes b; entry_point := Some name; edges := edges b |}.

Definition add_edge (src dst : string) (b : StateGraph) : StateGraph :=
  {| nodes := nodes b; entry_point := entry_point b; edges := edges b ++ [(src, dst)] |}.

Fixpoint assoc {A : Type} (k : string) (l : list (string * A)) : option A :=
  match l with
  | [] => None
  | (k', a) :: l' => if String.eqb k' k then Some a else assoc k l'
  end.

Definition log_node (name : string) (state : GraphState) : M unit :=
  modify (with_node_trace (fun l => l ++ [(name, state)])).


(** The default [recursion_limit] of a compiled graph. *)
Definition recursion_limit : nat := 25.

(** The run of a compiled graph whose nodes have one outgoing edge each:
    the node at [cur] receives the state and returns an update, every key
    of the update overwrites its channel and the other channels keep their
    value, and the run moves along the node's edge until it reaches [END].
    A run longer than the recursion limit raises. *)
Fixpoint run_from (g : StateGraph) (fuel : nat) (cur : string) (state : GraphState)
    : M GraphState :=
  if String.eqb cur END then mret state
  else
    match fuel with
    | O => raise GraphRecursionError
    | S fuel' =>
        match assoc cur (nodes g) with
        | None => raise (External "ValueError")
        | Some f =>
            _ ← log_node cur state;
            update ← f state;
            let state' : GraphState := update ∪ state in
            match assoc cur (edges g) with
            | Some next => run_from g fuel' next state'
            | None => mret state'
            end
        end
    end.

(** [graph.invoke(input)]. *)
Definition invoke (g : StateGraph) (input : GraphState) : M GraphState :=
  match entry_point g with
  | Some start => run_from g recursion_limit start input
  | None => raise (External "ValueError")
  end.

End Graph.

Section App.

Context (svc : Services).

Definition build_graph : Graph.StateGraph :=
  let builder := Graph.new in
  let builder := Graph.add_node "retrieve_memory" (retrieve_memory_node svc) builder in
  let builder := Graph.add_node "prompt_guidance" (prompt_guidance_node svc) builder in
  let builder := Graph.add_node "chat_by_llm1" (chat_by_llm1_node svc) builder in
  let builder := Graph.set_entry_point "retrieve_memory" builder in
  let builder := Graph.add_edge "retrieve_memory" "prompt_guidance" builder in
  let builder := Graph.add_edge "prompt_guidance" "chat_by_llm1" builder in
  let builder := Graph.add_edge "chat_by_llm1" Graph.END builder in
  builder.

Definition graph : Graph.StateGraph := build_graph.

(** ** The chat-input handler of the script *)

Definition append_message (m : Message) : M unit :=
  modify (with_messages (fun l => l ++ [m])).


Definition show (ev : UIEvent) : M unit :=
  modify (with_ui (fun l => l ++ [ev])).


(** [result = ...] and [reply = ...]. *)
Definition assign_result (r : GraphState) : M unit :=
  modify (with_var_result (Some r)).


Definition assign_reply (s : string) : M unit :=
  modify (with_var_reply (Some s)).


(** Reading the names [result] and [reply]: [NameError] when unbound. *)
Definition name_result : M GraphState := fun w =>
  match var_result w with
  | Some r => (Ok r, w)
  | None => (Raise NameError, w)
  end.

Definition name_reply : M string := fun w =>
  match var_reply w with
  | Some s => (Ok s, w)
  | None => (Raise NameError, w)
  end.

Definition fallback_reply : string :=
  "ごめんなさい、うまく考えられなかったみたいです。もう一度試してもらえますか？".

(** The [try] statement under the spinner. *)
Definition generate_reply (user_input : string) : M unit :=
  try_except
    (r ← Graph.invoke graph ({[ "input" := user_input ]} : GraphState);
     _ ← assign_result r;
     result ← name_result;
     reply ← state_get result "response";
     assign_reply reply)
    any_Exception
    (fun e =>
       _ ← show (StError e);
       assign_reply fallback_reply).

(** The body of [if user_input:]. *)
Definition handle_input (user_input : string) : M unit :=
  _ ← append_message (HumanMessage user_input);
  _ ← show (ChatMessage "🧑‍💻" user_input);
  _ ← generate_reply user_input;
  reply ← name_reply;
  _ ← append_message (AIMessage reply);
  reply' ← name_reply;
  _ ← show (ChatMessage "🤖" reply');
  _ ← show (StMarkdown "### ✉️ LLM2からの指示:");
  result ← name_result;
  show (StCode (default "なし" (result !! "llm1_prompt_instructions"))).

(** A rerun of the script starts with neither [result] nor [reply] bound. *)
Definition fresh_names : M unit :=
  modify (fun w => with_var_result None (with_var_reply None w)).


(** One rerun with what [st.chat_input] returned: [None], or the text. *)
Definition chat_turn (user_input : option string) : M unit :=
  _ ← fresh_names;
  match user_input with
  | Some text => if truthy text then handle_input text else mret tt
  | None => mret tt
  end.

End App.

(** * The runs, as histories *)

(** The text [retrieve_memory_node] puts under ["retrieved_memory"] when
    the search returned [rs]. *)
Definition retrieved_memory_of (rs : list pyval) : string :=
  match memory_text_of rs with
  | Ok m => if truthy m then m else no_memory
  | Raise _ => no_memory
  end.

(** ** The run of the graph *)

(** The states of a run on the input [u]: what the graph is invoked with,
    and the channels after each node's update is merged. *)
Definition state0 (u : string) : GraphState := {[ "input" := u ]}.

Definition state1 (u m : string) : GraphState :=
  {[ "input" := u; "retrieved_memory" := m; "llm1_prompt_instructions" := "" ]}.

Definition state2 (u m i : string) : GraphState :=
  {[ "input" := u; "retrieved_memory" := m; "llm1_prompt_instructions" := i ]}.

Definition state3 (u m i r : string) : GraphState :=
  {[ "response" := r; "input" := u; "retrieved_memory" := m;
     "llm1_prompt_instructions" := i ]}.

(** How a run ends: at the first call that raises, or after the turn is
    stored. *)
Inductive Outcome : Type :=
  | SearchFailed (e : exn)
  | PlanningFailed (rs : list pyval) (e : exn)
  | GenerationFailed (rs : list pyval) (instructions : string) (e : exn)
  | CreateFailed (rs : list pyval) (instructions response : string) (e : exn)
  | Completed (rs : list pyval) (instructions response : string).

Section Outcomes.

Context (u : string).

Definition planning_call (rs : list pyval) (a : result string) : LLMCall :=
  {| llm := llm2; prompt := guidance_prompt u (retrieved_memory_of rs); answer := a |}.

Definition generation_call (rs : list pyval) (i : string) (a : result string) : LLMCall :=
  {| llm := llm1; prompt := chat_prompt i (retrieved_memory_of rs) u; answer := a |}.

Definition run_result (o : Outcome) : result GraphState :=
  match o with
  | SearchFailed e | PlanningFailed _ e | GenerationFailed _ _ e
  | CreateFailed _ _ _ e => Raise e
  | Completed rs i r => Ok (state3 u (retrieved_memory_of rs) i r)
  end.

Definition run_nodes (o : Outcome) : list (string * GraphState) :=
  match o with
  | SearchFailed _ => [("retrieve_memory", state0 u)]
  | PlanningFailed rs _ =>
      [("retrieve_memory", state0 u);
       ("prompt_guidance", state1 u (retrieved_memory_of rs))]
  | GenerationFailed rs i _ | CreateFailed rs i _ _ | Completed rs i _ =>
      [("retrieve_memory", state0 u);
       ("prompt_guidance", state1 u (retrieved_memory_of rs));
       ("chat_by_llm1", state2 u (retrieved_memory_of rs) i)]
  end.

Definition run_llm_calls (o : Outcome) : list LLMCall :=
  match o with
  | SearchFailed _ => []
  | PlanningFailed rs e => [planning_call rs (Raise e)]
  | GenerationFailed rs i e =>
      [planning_call rs (Ok i); generation_call rs i (Raise e)]
  | CreateFailed rs i r _ | Completed rs i r =>
      [planning_call rs (Ok i); generation_call rs i (Ok r)]
  end.

Definition run_store_calls (o : Outcome) : list StoreCall :=
  match o with
  | SearchFailed e => [Search u (Raise e)]
  | PlanningFailed rs _ | GenerationFailed rs _ _ => [Search u (Ok rs)]
  | CreateFailed rs _ r e => [Search u (Ok rs); Create (stored_turn u r) (Some e)]
  | Completed rs _ r => [Search u (Ok rs); Create (stored_turn u r) None]
  end.

Definition run_memories (o : Outcome) : list string :=
  match o with
  | Completed _ _ r => [stored_turn u r]
  | _ => []
  end.

Definition run_debug (o : Outcome) (before : option (list pyval)) : option (list pyval) :=
  match o with
  | SearchFailed _ => before
  | PlanningFailed rs _ | GenerationFailed rs _ _ | CreateFailed rs _ _ _
  | Completed rs _ _ => Some rs
  end.

(** The run from [w] ended as [o], with result [r] in the world [w']. *)
Record runs_as (w : World) (o : Outcome) (r : result GraphState) (w' : World) : Prop := {
  ra_result : r = run_result o;
  ra_messages : messages w' = messages w;
  ra_debug : debug_search_results w' = run_debug o (debug_search_results w);
  ra_memories : memories w' = memories w ++ run_memories o;
  ra_var_result : var_result w' = var_result w;
  ra_var_reply : var_reply w' = var_reply w;
  ra_ui : ui w' = ui w;
  ra_llm_calls : llm_calls w' = llm_calls w ++ run_llm_calls o;
  ra_store_calls : store_calls w' = store_calls w ++ run_store_calls o;
  ra_node_trace : node_trace w' = node_trace w ++ run_nodes o
}.

End Outcomes.

(** ** One turn of the chat *)

(** The reply the turn shows. *)
Definition reply_of (o : Outcome) : string :=
  match o with
  | Completed _ _ r => r
  | _ => fallback_reply
  end.

Definition turn_result (o : Outcome) : result unit :=
  match o with
  | Completed _ _ _ => Ok tt
  | _ => Raise NameError
  end.

Definition turn_ui (text : string) (o : Outcome) : list UIEvent :=
  ChatMessage "🧑‍💻" text ::
  match run_result text o with
  | Raise e => [StError e]
  | Ok _ => []
  end ++
  [ChatMessage "🤖" (reply_of o); StMarkdown "### ✉️ LLM2からの指示:"] ++
  match o with
  | Completed _ i _ => [StCode i]
  | _ => []
  end.

Definition turn_var_result (text : string) (o : Outcome) : option GraphState :=
  match run_result text o with
  | Ok s => Some s
  | Raise _ => None
  end.

(** The turn on [text] from [w] went as [o], ending with [r] in [w']. *)
Record turn_as (text : string) (w : World) (o : Outcome) (r : result unit) (w' : World)
    : Prop := {
  ta_result : r = turn_result o;
  ta_messages :
    messages w' = messages w ++ [HumanMessage text; AIMessage (reply_of o)];
  ta_debug : debug_search_results w' = run_debug o (debug_search_results w);
  ta_memories : memories w' = memories w ++ run_memories text o;
  ta_var_result : var_result w' = turn_var_result text o;
  ta_var_reply : var_reply w' = Some (reply_of o);
  ta_ui : ui w' = ui w ++ turn_ui text o;
  ta_llm_calls : llm_calls w' = llm_calls w ++ run_llm_calls text o;
  ta_store_calls : store_calls w' = store_calls w ++ run_store_calls text o;
  ta_node_trace : node_trace w' = node_trace w ++ run_nodes text o
}.

(** The world in which the turn invokes the graph. *)
Definition turn_start (text : string) (w : World) : World :=
  with_ui (fun l => l ++ [ChatMessage "🧑‍💻" text])
    (with_messages (fun l => l ++ [HumanMessage text])
       (with_var_result None (with_var_reply None w))).

(** ** Sample sessions *)

Definition empty_world : World :=
  {| messages := []; debug_search_results := None; memories := [];
     var_result := None; var_reply := None; ui := []; llm_calls := [];
     store_calls := []; node_trace := [] |}.

Definition StoreUnavailable : exn := External "StoreUnavailable".
Definition ProviderFailure : exn := External "ProviderFailure".

(** A provider that plans and answers. *)
Definition sample_complete (w : World) (chat : ChatOpenAI) (p : string) : result string :=
  Ok (if Qeq_bool (temperature chat) (temperature llm2) then "plan" else "reply").

(** The store holds a bare string; everything works. *)
Definition jazz_services : Services :=
  {| search_memory := fun _ _ => Ok [PyStr "User loves jazz"];
     create_memory := fun _ _ => None;
     complete := sample_complete |}.

(** The store answers with records of several shapes. *)
Definition mixed_records : list pyval :=
  [PyDict [("value", PyDict [("content", PyStr "User loves jazz")])];
   PyDict [("value", PyNone)];
   PyStr "a note"].


(** The store cannot be reached for a search. *)
Definition search_down : Services :=
  {| search_memory := fun _ _ => Raise StoreUnavailable;
     create_memory := fun _ _ => None;
     complete := sample_complete |}.

(** The store cannot be reached for a write. *)
Definition create_down : Services :=
  {| search_memory := fun _ _ => Ok [];
     create_memory := fun _ _ => Some StoreUnavailable;
     complete := sample_complete |}.

(** The provider plans, then fails on the reply. *)
Definition generation_down : Services :=
  {| search_memory := fun _ _ => Ok [];
     create_memory := fun _ _ => None;
     complete := fun _ chat _ =>
       if Qeq_bool (temperature chat) (temperature llm2) then Ok "plan"
       else Raise ProviderFailure |}.

(** The calls, by kind, that a turn added to the history of [w]. *)
Definition new_llm_calls (w w' : World) : list LLMCall :=
  drop (length (llm_calls w)) (llm_calls w').

Definition new_store_calls (w w' : World) : list StoreCall :=
  drop (length (store_calls w)) (store_calls w').

(** [sub] occurs verbatim in [s]. *)
Definition occurs_in (sub s : string) : Prop :=
  exists a b, s = a +:+ sub +:+ b.

(** A node leaves alone every channel outside [owned]: after its update is
    merged, such a channel holds what it held, or is still unset. *)
Definition writes_only (node : GraphState -> M GraphState) (owned : list string) : Prop :=
  forall (state : GraphState) (w : World) (update : GraphState) (w' : World),
    node state w = (Ok update, w') ->
    forall k, k ∉ owned -> (update ∪ state) !! k = state !! k.

(** * Further notions used to describe the code *)

(** ** The shapes of a record, as the comprehension treats them *)

(** [r] is a mapping whose "value" is a mapping whose "content" is the
    text [s]. *)
Inductive WellShaped : pyval -> string -> Prop :=
  | well_shaped d d' s :
      dict_get "value" d = Some (PyDict d') ->
      dict_get "content" d' = Some (PyStr s) ->
      WellShaped (PyDict d) s.

(** [r] fails the comprehension's condition without raising. *)
Inductive LeftOut : pyval -> Prop :=
  | left_out_not_dict r : is_dict r = false -> LeftOut r
  | left_out_no_value d : dict_get "value" d = None -> LeftOut (PyDict d)
  | left_out_no_content d d' :
      dict_get "value" d = Some (PyDict d') ->
      dict_get "content" d' = None ->
      LeftOut (PyDict d)
  | left_out_text d t :
      dict_get "value" d = Some (PyStr t) ->
      str_contains "content" t = false ->
      LeftOut (PyDict d)
  | left_out_list d l :
      dict_get "value" d = Some (PyList l) ->
      existsb (is_str "content") l = false ->
      LeftOut (PyDict d).




(** The texts of the well-shaped records of a batch, in order, when each
    record is well shaped or left out. *)
Inductive Extracts : list pyval -> list string -> Prop :=
  | extracts_nil : Extracts [] []
  | extracts_keep r s rs ss :
      WellShaped r s -> Extracts rs ss -> Extracts (r :: rs) (s :: ss)
  | extracts_drop r rs ss :
      LeftOut r -> Extracts rs ss -> Extracts (r :: rs) ss.

(** [n] line breaks. *)
Fixpoint newlines (n : nat) : string :=
  match n with
  | O => ""
  | S n' => nl +:+ newlines n'
  end.

(** A well-shaped record, and one with further keys around. *)
Definition record_of (s : string) : pyval :=
  PyDict [("value", PyDict [("content", PyStr s)])].

Definition sample_batch : list pyval :=
  [PyStr "a note";
   PyDict [("key", PyStr "k1"); ("value", PyDict [("kind", PyStr "x"); ("content", PyStr "User loves jazz")])];
   PyDict [("value", PyStr "plain")];
   PyNone;
   record_of "User is anxious"].

Definition sample_services : Services :=
  {| search_memory := fun _ _ => Ok sample_batch;
     create_memory := fun _ _ => None;
     complete := sample_complete |}.



(** ** The rest of the page: history, turn, debug panel *)

(** The loop over [st.session_state.messages] that redraws the
    conversation. *)
Definition show_message (msg : Message) : M unit :=
  match msg with
  | HumanMessage content => show (ChatMessage "🧑‍💻" content)
  | AIMessage content => show (ChatMessage "🤖" content)
  end.

Fixpoint for_each {A : Type} (body : A -> M unit) (l : list A) : M unit :=
  match l with
  | [] => mret tt
  | x :: rest => _ ← body x; for_each body rest
  end.

Definition show_history : M unit := fun w => for_each show_message (messages w) w.

(** What the last block of the script hands to [st.json], if it draws the
    panel: the key is set and its list is not empty. *)
Definition debug_panel (w : World) : option (list pyval) :=
  match debug_search_results w with
  | Some (r :: rs) => Some (r :: rs)
  | Some [] | None => None
  end.

Definition show_debug_panel : M (option (list pyval)) := fun w => (Ok (debug_panel w), w).

(** One rerun from the history loop to the end of the script, returning
    what the debug panel shows. *)
Definition page_tail (svc : Services) (user_input : option string)
    : M (option (list pyval)) :=
  _ ← show_history;
  _ ← chat_turn svc user_input;
  show_debug_panel.


(** The chat bubble of a message, and the bubbles among page events. *)
Definition bubble (msg : Message) : UIEvent :=
  match msg with
  | HumanMessage content => ChatMessage "🧑‍💻" content
  | AIMessage content => ChatMessage "🤖" content
  end.

Definition is_bubble (ev : UIEvent) : bool :=
  match ev with
  | ChatMessage _ _ => true
  | _ => false
  end.

Definition new_ui (w w' : World) : list UIEvent := drop (length (ui w)) (ui w').

(** The inputs that start a turn: the texts that are not empty. *)
Definition typed (user_input : option string) : option string :=
  match user_input with
  | Some text => if truthy text then Some text else None
  | None => None
  end.

Definition human_text (msg : Message) : option string :=
  match msg with
  | HumanMessage content => Some content
  | AIMessage _ => None
  end.

Definition is_ai (msg : Message) : bool :=
  match msg with
  | AIMessage _ => true
  | HumanMessage _ => false
  end.

(** The world after the history loop. *)
Definition after_history (w : World) : World :=
  with_ui (fun u => u ++ map bubble (messages w)) w.

(** A provider that raises on every call. *)
Definition provider_down : Services :=
  {| search_memory := fun _ _ => Ok [record_of "User loves jazz"];
     create_memory := fun _ _ => None;
     complete := fun _ _ _ => Raise ProviderFailure |}.

(** The search fails unless the query is "first". *)
Definition flaky_search : Services :=
  {| search_memory := fun _ query =>
       if String.eqb query "first" then Ok [record_of "User loves jazz"]
       else Raise StoreUnavailable;
     create_memory := fun _ _ => None;
     complete := sample_complete |}.

(** ** Accounts and the head of the script

    The functions [sign_up], [sign_in] and [sign_out], the cached
    [init_langmem_tools], and the top-level statements of the script from
    its title to the block that fetches the tools.  Reading a key of
    [st.session_state] that is not set raises [AttributeError], as does
    reading an attribute of [None]; [st.rerun()] and [st.stop()] end the
    run by an exception that [except Exception] does not catch; a function
    under [st.cache_resource] runs its body once per argument.  The
    secrets and the creation of the account client at the top of the
    script are taken to succeed. *)

(** The attributes of [response.user] that the script reads. *)
Record User : Type := { user_email : string; user_id : string }.

(** An answer of [supabase_client.auth]: [response.user], which may be
    [None], and the text of [response.session]. *)
Record AuthResponse : Type := {
  response_user : option User;
  response_session : string
}.

(** The exceptions of this part: [AttributeError], or what a service
    raised.  All are [Exception]s. *)
Inductive pyexc : Type :=
  | AttributeError
  | Raised (e : exn).

(** What this part draws. *)
Inductive Notice : Type :=
  | PageTitle
  | StSuccess (text : string)
  | StErrorText (text : string)
  | StErrorExc (label : string) (e : pyexc)
  | SidebarMarkdown (text : string)
  | SidebarWrite (text : string)
  | Subheader (text : string)
  | AuthForm.

(** The calls made to the account service. *)
Inductive AuthCall : Type :=
  | SignUp (email password : string)
  | SignInWithPassword (email password : string)
  | SignOut.

(** The keys of [st.session_state] that this part uses; [None] is a key
    that is not set.  [s_tools] is the namespace to which the tools kept in
    the session are bound. *)
Record Session : Type := {
  s_user : option (option User);
  s_messages : option (list Message);
  s_langmem_initialized : option bool;
  s_tools : option (string * string)
}.

(** The session, the page, the calls made, and the user ids for which
    [init_langmem_tools] has already run in this process. *)
Record Page : Type := {
  session : Session;
  notices : list Notice;
  auth_calls : list AuthCall;
  cached : list string
}.

(** How a piece of the script ends: normally, with an exception, or by
    [st.rerun()] or [st.stop()], which end the run and are not
    [Exception]s. *)
Inductive ending (A : Type) : Type :=
  | Done (a : A)
  | Fault (e : pyexc)
  | Rerun
  | Stop.
Arguments Done {A} a.
Arguments Fault {A} e.
Arguments Rerun {A}.
Arguments Stop {A}.

Definition Script (A : Type) : Type := Page -> ending A * Page.

#[global] Instance Script_ret : MRet Script := fun A a p => (Done a, p).
#[global] Instance Script_bind : MBind Script := fun A B f m p =>
  match m p with
  | (Done a, p') => f a p'
  | (Fault e, p') => (Fault e, p')
  | (Rerun, p') => (Rerun, p')
  | (Stop, p') => (Stop, p')
  end.

(** [try: body  except Exception as e: handler]. *)
Definition try_Exception {A : Type} (body : Script A) (handler : pyexc -> Script A)
    : Script A := fun p =>
  match body p with
  | (Fault e, p') => handler e p'
  | r => r
  end.

Definition st_rerun {A : Type} : Script A := fun p => (Rerun, p).
Definition st_stop {A : Type} : Script A := fun p => (Stop, p).

Definition notice (n : Notice) : Script unit := fun p =>
  (Done tt,
   {| session := session p; notices := notices p ++ [n];
      auth_calls := auth_calls p; cached := cached p |}).

Definition with_session (f : Session -> Session) (p : Page) : Page :=
  {| session := f (session p); notices := notices p;
     auth_calls := auth_calls p; cached := cached p |}.

Definition set_user (v : option User) : Script unit := fun p =>
  (Done tt,
   with_session (fun s =>
     {| s_user := Some v; s_messages := s_messages s;
        s_langmem_initialized := s_langmem_initialized s; s_tools := s_tools s |}) p).

Definition set_messages (v : list Message) : Script unit := fun p =>
  (Done tt,
   with_session (fun s =>
     {| s_user := s_user s; s_messages := Some v;
        s_langmem_initialized := s_langmem_initialized s; s_tools := s_tools s |}) p).

Definition set_langmem_initialized (v : bool) : Script unit := fun p =>
  (Done tt,
   with_session (fun s =>
     {| s_user := s_user s; s_messages := s_messages s;
        s_langmem_initialized := Some v; s_tools := s_tools s |}) p).

Definition set_tools (v : string * string) : Script unit := fun p =>
  (Done tt,
   with_session (fun s =>
     {| s_user := s_user s; s_messages := s_messages s;
        s_langmem_initialized := s_langmem_initialized s; s_tools := Some v |}) p).

(** [st.session_state.user]: [AttributeError] when the key is not set. *)
Definition get_user : Script (option User) := fun p =>
  match s_user (session p) with
  | Some v => (Done v, p)
  | None => (Fault AttributeError, p)
  end.

(** [st.session_state.user.<attribute>]: [AttributeError] also when the
    user is [None]. *)
Definition get_user_attr {A : Type} (attr : User -> A) : Script A :=
  user ← get_user;
  match user with
  | Some u => mret (attr u)
  | None => fun p => (Fault AttributeError, p)
  end.

Definition get_langmem_initialized : Script bool := fun p =>
  match s_langmem_initialized (session p) with
  | Some v => (Done v, p)
  | None => (Fault AttributeError, p)
  end.

Definition get_tools : Script (string * string) := fun p =>
  match s_tools (session p) with
  | Some v => (Done v, p)
  | None => (Fault AttributeError, p)
  end.

(** [email.split('@')[0]]: the text before the first "@", all of it when
    there is none. *)
Fixpoint before_at (s : string) : string :=
  match s with
  | EmptyString => ""
  | String c rest => if Ascii.eqb c "@"%char then "" else String c (before_at rest)
  end.

(** The account service and the set-up of the store: what each call
    answers, or raises. *)
Record Accounts : Type := {
  auth_sign_up : string -> string -> result AuthResponse;
  auth_sign_in_with_password : string -> string -> result AuthResponse;
  auth_sign_out : option exn;
  store_setup : string -> option exn
}.

Section Accounts.

Context (acc : Accounts).

Definition call_auth {A : Type} (c : AuthCall) (answer : result A) : Script A := fun p =>
  (match answer with
   | Ok a => Done a
   | Raise e => Fault (Raised e)
   end,
   {| session := session p; notices := notices p;
      auth_calls := auth_calls p ++ [c]; cached := cached p |}).

Definition sign_up (email password : string) : Script unit :=
  try_Exception
    (response ← call_auth (SignUp email password) (auth_sign_up acc email password);
     match response_user response with
     | Some user =>
         _ ← set_user (Some user);
         _ ← notice (StSuccess
                "サインアップしました！メールを確認してアカウントを有効にしてください。");
         set_messages [AIMessage "こんにちは、新しい友達！今日はどんな気分かな？"]
     | None =>
         notice (StErrorText ("サインアップに失敗しました: " +:+ response_session response))
     end)
    (fun e => notice (StErrorExc "サインアップエラー: " e)).

Definition sign_in (email password : string) : Script unit :=
  try_Exception
    (response ← call_auth (SignInWithPassword email password)
                  (auth_sign_in_with_password acc email password);
     match response_user response with
     | Some user =>
         _ ← set_user (Some user);
         shown ← get_user_attr user_email;
         _ ← notice (StSuccess ("ようこそ、" +:+ shown +:+ "さん！"));
         address ← get_user_attr user_email;
         _ ← set_messages
               [AIMessage ("おかえりなさい、" +:+ before_at address +:+
                           "さん。今日はどんなお話をする？")];
         _ ← set_langmem_initialized false;
         st_rerun
     | None =>
         notice (StErrorText
           "ログインに失敗しました。メールアドレスまたはパスワードを確認してください。")
     end)
    (fun e => notice (StErrorExc "ログインエラー: " e)).

Definition sign_out : Script unit :=
  try_Exception
    (_ ← call_auth SignOut (match auth_sign_out acc with
                            | Some e => Raise e
                            | None => Ok tt
                            end);
     _ ← set_user None;
     _ ← set_messages [];
     _ ← set_langmem_initialized false;
     _ ← notice (StSuccess "ログアウトしました。");
     st_rerun)
    (fun e => notice (StErrorExc "ログアウトエラー: " e)).

(** What the widgets of the page return in a run. *)
Record Inputs : Type := {
  email_field : string;
  password_field : string;
  login_clicked : bool;
  signup_clicked : bool;
  logout_clicked : bool
}.

(** The three [if "..." not in st.session_state] statements. *)
Definition init_session_state : Script unit := fun p =>
  (Done tt,
   with_session (fun s =>
     {| s_user := match s_user s with None => Some None | v => v end;
        s_messages := match s_messages s with None => Some [] | v => v end;
        s_langmem_initialized :=
          match s_langmem_initialized s with None => Some false | v => v end;
        s_tools := s_tools s |}) p).

(** The block under [if not st.session_state.user:]. *)
Definition auth_gate (inputs : Inputs) : Script unit :=
  user ← get_user;
  match user with
  | Some _ => mret tt
  | None =>
      _ ← notice (Subheader "ログインまたはサインアップ");
      _ ← notice AuthForm;
      _ ← (if login_clicked inputs
           then sign_in (email_field inputs) (password_field inputs) else mret tt);
      _ ← (if signup_clicked inputs
           then sign_up (email_field inputs) (password_field inputs) else mret tt);
      st_stop
  end.

(** The script from its first lines to the log-out button. *)
Definition script_head (inputs : Inputs) : Script unit :=
  _ ← notice PageTitle;
  shown ← get_user_attr user_email;
  uid ← get_user_attr user_id;
  _ ← notice (SidebarMarkdown ("**ログイン中:** " +:+ shown +:+ " (ID: " +:+ uid +:+ ")"));
  _ ← init_session_state;
  _ ← auth_gate inputs;
  shown' ← get_user_attr user_email;
  _ ← notice (SidebarMarkdown ("**ログイン中:** " +:+ shown'));
  if logout_clicked inputs then sign_out else mret tt.

(** [st.cache_resource]: whether the function has returned for this
    argument before, and the keeping of a new result. *)
Definition cache_hit (uid : string) : Script bool := fun p =>
  (Done (bool_decide (uid ∈ cached p)), p).

Definition cache_keep (uid : string) : Script unit := fun p =>
  (Done tt,
   {| session := session p; notices := notices p;
      auth_calls := auth_calls p; cached := cached p ++ [uid] |}).

(** [PostgresStore.from_conn_string], [__enter__] and [setup]. *)
Definition setup_store (uid : string) : Script unit := fun p =>
  match store_setup acc uid with
  | Some e => (Fault (Raised e), p)
  | None => (Done tt, p)
  end.

(** [init_langmem_tools], under [st.cache_resource]: for a user id it has
    returned for before, the kept tools come back and the body does not
    run; otherwise the store is set up, the namespace is written to the
    sidebar, the flag is set, and the tools bound to the namespace of the
    id are returned and kept. *)
Definition init_langmem_tools (uid : string) : Script (string * string) :=
  hit ← cache_hit uid;
  if hit : bool then mret (uid, "memories")
  else
    _ ← setup_store uid;
    _ ← notice (SidebarWrite
           ("LangMem Namespace: `(" +:+ repr_str uid +:+ ", " +:+
            repr_str "memories" +:+ ")`"));
    _ ← set_langmem_initialized true;
    _ ← cache_keep uid;
    mret (uid, "memories").

(** The block that fetches the tools, at each run. *)
Definition langmem_block : Script (string * string) :=
  initialized ← get_langmem_initialized;
  if negb initialized then
    uid ← get_user_attr user_id;
    tools ← init_langmem_tools uid;
    _ ← set_tools tools;
    mret tools
  else get_tools.

(** The script up to the tools. *)
Definition script_to_tools (inputs : Inputs) : Script (string * string) :=
  _ ← script_head inputs;
  langmem_block.

End Accounts.

(** The tools kept in the session are those of the user logged in. *)
Definition tools_bound (s : Session) : Prop :=
  s_langmem_initialized s = Some true ->
  exists u, s_user s = Some (Some u) /\ s_tools s = Some (user_id u, "memories").

Definition new_notices (p p' : Page) : list Notice :=
  drop (length (notices p)) (notices p').

Definition new_auth_calls (p p' : Page) : list AuthCall :=
  drop (length (auth_calls p)) (auth_calls p').

Definition first_page : Page :=
  {| session := {| s_user := None; s_messages := None;
                   s_langmem_initialized := None; s_tools := None |};
     notices := []; auth_calls := []; cached := [] |}.

Definition aya : User := {| user_email := "aya@example.com"; user_id := "u-1" |}.

Definition page_of (u : User) : Page :=
  {| session := {| s_user := Some (Some u); s_messages := Some [AIMessage "hello"];
                   s_langmem_initialized := Some false; s_tools := None |};
     notices := []; auth_calls := []; cached := [] |}.

Definition accounts_ok : Accounts :=
  {| auth_sign_up := fun _ _ => Ok {| response_user := Some aya; response_session := "None" |};
     auth_sign_in_with_password := fun _ _ =>
       Ok {| response_user := Some aya; response_session := "session" |};
     auth_sign_out := None;
     store_setup := fun _ => None |}.

Definition accounts_down : Accounts :=
  {| auth_sign_up := fun _ _ => Raise (External "AuthApiError");
     auth_sign_in_with_password := fun _ _ => Raise (External "AuthApiError");
     auth_sign_out := Some (External "AuthApiError");
     store_setup := fun _ => None |}.

Definition no_clicks : Inputs :=
  {| email_field := ""; password_field := ""; login_clicked := false;
     signup_clicked := false; logout_clicked := false |}.

Definition logout_click : Inputs :=
  {| email_field := ""; password_field := ""; login_clicked := false;
     signup_clicked := false; logout_clicked := true |}.

Definition login_click : Inputs :=
  {| email_field := "aya@example.com"; password_field := "pw"; login_clicked := true;
     signup_clicked := true; logout_clicked := false |}.

(** * Properties *)

Example repr_demo :
  str (PyDict [("value", PyDict [("content", PyStr "it's"); ("n", PyInt (-3))])])
  = "{'value': {'content': " +:+ String dquote "it's" +:+ String dquote ", 'n': -3}}".
Proof. vm_compute. reflexivity. Qed.

(** The nested shape gives its content; a record the comprehension
    chokes on sends the whole batch through [str]. *)
Example well_shaped_record :
  memory_text_of [PyDict [("value", PyDict [("content", PyStr "User loves jazz")])]]
  = Ok "User loves jazz".
Proof. reflexivity. Qed.

Example mixed_records_text :
  memory_text_of mixed_records
  = Ok ("{'value': {'content': 'User loves jazz'}}" +:+ nl +:+
        "{'value': None}" +:+ nl +:+ "a note").
Proof. vm_compute. reflexivity. Qed.

Example bare_string_text : memory_text_of [PyStr "User loves jazz"] = Ok "".
Proof. reflexivity. Qed.

Example completed_turn :
  let run := chat_turn jazz_services (Some "hi") empty_world in
  run.1 = Ok tt /\
  messages run.2 = [HumanMessage "hi"; AIMessage "reply"] /\
  memories run.2 = [stored_turn "hi" "reply"] /\
  map fst (node_trace run.2) = ["retrieve_memory"; "prompt_guidance"; "chat_by_llm1"].
Proof. vm_compute. repeat split. Qed.

(** ** Retrieval: the normalisation of search results *)

Section Normalisation.

Lemma contains_raise k v e : contains k v = Raise e -> e = TypeError.
Proof. destruct v; simpl; congruence. Qed.

Lemma getitem_raise v k e : getitem v k = Raise e -> TypeError_or_KeyError e = true.
Proof.
  destruct v; simpl; try (intros [= <-]; reflexivity).
  destruct (dict_get k d); [discriminate | intros [= <-]; reflexivity].
Qed.

Lemma has_nested_content_raise r e :
  has_nested_content r = Raise e -> TypeError_or_KeyError e = true.
Proof.
  unfold has_nested_content. destruct (is_dict r); [| discriminate].
  destruct (contains "value" r) as [[|]|e1] eqn:Hin; simpl; try discriminate.
  - destruct (getitem r "value") as [v|e2] eqn:Hv; simpl.
    + intros H. apply contains_raise in H. subst e. reflexivity.
    + intros [= <-]. eapply getitem_raise, Hv.
  - intros [= <-]. apply contains_raise in Hin. subst e1. reflexivity.
Qed.

(** Whatever the comprehension raises is caught by the [except] clause. *)
Lemma nested_contents_raise rs e :
  nested_contents rs = Raise e -> TypeError_or_KeyError e = true.
Proof.
  induction rs as [|r rs IH]; simpl; [discriminate |].
  destruct (has_nested_content r) as [[|]|e1] eqn:Hkeep; simpl.
  - destruct (getitem r "value") as [v|e2] eqn:Hv; simpl;
      [| intros [= <-]; eapply getitem_raise, Hv].
    destruct (getitem v "content") as [c|e3] eqn:Hc; simpl;
      [| intros [= <-]; eapply getitem_raise, Hc].
    destruct (nested_contents rs) as [cs|e4]; simpl; [discriminate |].
    intros [= <-]. apply IH. reflexivity.
  - exact IH.
  - intros [= <-]. eapply has_nested_content_raise, Hkeep.
Qed.

Lemma join_values_raise sep l e : join_values sep l = Raise e -> e = TypeError.
Proof.
  unfold join_values.
  assert (H : forall e', join_values_items l = Raise e' -> e' = TypeError).
  { induction l as [|v l IH]; simpl; [discriminate |].
    destruct v; try (intros e' [= <-]; reflexivity).
    destruct (join_values_items l); [discriminate |].
    intros e' [= <-]. apply IH. reflexivity. }
  destruct (join_values_items l) as [ss|e']; [discriminate |].
  intros [= <-]. apply H. reflexivity.
Qed.

(** The [if search_results:] block never raises. *)
Lemma memory_text_of_total rs : exists m, memory_text_of rs = Ok m.
Proof.
  destruct rs as [|r rs]; [exists ""; reflexivity |].
  unfold memory_text_of.
  destruct (nested_contents (r :: rs)) as [cs|e] eqn:Hcs.
  - change (cs0 ← Ok cs; join_values nl cs0) with (join_values nl cs).
    destruct (join_values nl cs) as [m|e] eqn:Hj.
    + exists m. reflexivity.
    + apply join_values_raise in Hj. subst e. eexists. reflexivity.
  - change (cs ← Raise e; join_values nl cs) with (@Raise string e).
    apply nested_contents_raise in Hcs. unfold try_pure. rewrite Hcs.
    eexists. reflexivity.
Qed.


(** An item that is not a [dict] is left out by the comprehension, and
    raises nothing. *)
Lemma nested_contents_skips r rs :
  is_dict r = false -> nested_contents (r :: rs) = nested_contents rs.
Proof.
  intros H. simpl. unfold has_nested_content. rewrite H. reflexivity.
Qed.

End Normalisation.



(** ** The three nodes, one call at a time *)

Section Nodes.

Context (svc : Services).

Ltac run_monad := unfold mbind, M_bind, mret, M_ret, lift, modify, raise.

Lemma state_get_Some (state : GraphState) k v (w : World) :
  state !! k = Some v -> state_get state k w = (Ok v, w).
Proof. intros H. unfold state_get. rewrite H. reflexivity. Qed.

Lemma state_get_None (state : GraphState) k (w : World) :
  state !! k = None -> state_get state k w = (Raise KeyError, w).
Proof. intros H. unfold state_get. rewrite H. reflexivity. Qed.

Lemma retrieve_memory_node_run (state : GraphState) u w :
  state !! "input" = Some u ->
  retrieve_memory_node svc state w =
    let found := search_memory svc w u in
    let w1 := with_store_calls (fun l => l ++ [Search u found]) w in
    match found with
    | Ok rs =>
        (Ok {[ "input" := u;
               "retrieved_memory" := retrieved_memory_of rs;
               "llm1_prompt_instructions" := "" ]},
         with_debug_search_results (Some rs) w1)
    | Raise e => (Raise e, w1)
    end.
Proof.
  intros Hin. unfold retrieve_memory_node, search_tool_invoke,
    set_debug_search_results, retrieved_memory_of.
  run_monad. rewrite (state_get_Some _ _ _ _ Hin).
  destruct (search_memory svc w u) as [rs|e]; [| reflexivity].
  destruct (memory_text_of_total rs) as [m ->]. reflexivity.
Qed.

Lemma prompt_guidance_node_run (state : GraphState) u m w :
  state !! "input" = Some u ->
  state !! "retrieved_memory" = Some m ->
  prompt_guidance_node svc state w =
    let a := complete svc w llm2 (guidance_prompt u m) in
    let w1 := with_llm_calls
      (fun l => l ++ [{| llm := llm2; prompt := guidance_prompt u m; answer := a |}]) w in
    match a with
    | Ok instructions =>
        (Ok {[ "input" := u;
               "retrieved_memory" := m;
               "llm1_prompt_instructions" := instructions ]}, w1)
    | Raise e => (Raise e, w1)
    end.
Proof.
  intros Hin Hmem. unfold prompt_guidance_node, llm_invoke. run_monad.
  rewrite !(state_get_Some _ _ _ _ Hin), !(state_get_Some _ _ _ _ Hmem).
  destruct (complete svc w llm2 (guidance_prompt u m)) as [i|e]; [| reflexivity].
  rewrite !(state_get_Some _ _ _ _ Hin), !(state_get_Some _ _ _ _ Hmem).
  reflexivity.
Qed.

Lemma chat_by_llm1_node_run (state : GraphState) u m i w :
  state !! "input" = Some u ->
  state !! "retrieved_memory" = Some m ->
  state !! "llm1_prompt_instructions" = Some i ->
  chat_by_llm1_node svc state w =
    let a := complete svc w llm1 (chat_prompt i m u) in
    let w1 := with_llm_calls
      (fun l => l ++ [{| llm := llm1; prompt := chat_prompt i m u; answer := a |}]) w in
    match a with
    | Ok response =>
        let failure := create_memory svc w1 (stored_turn u response) in
        let w2 := with_store_calls
          (fun l => l ++ [Create (stored_turn u response) failure]) w1 in
        match failure with
        | None =>
            (Ok {[ "response" := response; "llm1_prompt_instructions" := i ]},
             with_memories (fun l => l ++ [stored_turn u response]) w2)
        | Some e => (Raise e, w2)
        end
    | Raise e => (Raise e, w1)
    end.
Proof.
  intros Hin Hmem Hins. unfold chat_by_llm1_node, llm_invoke, manage_tool_invoke_create.
  run_monad.
  rewrite (state_get_Some _ _ _ _ Hins), (state_get_Some _ _ _ _ Hmem),
    (state_get_Some _ _ _ _ Hin).
  destruct (complete svc w llm1 (chat_prompt i m u)) as [r|e]; [| reflexivity].
  rewrite (state_get_Some _ _ _ _ Hin).
  match goal with |- context [create_memory svc ?w' ?c] =>
    destruct (create_memory svc w' c) as [e|] end; [reflexivity |].
  rewrite (state_get_Some _ _ _ _ Hins). reflexivity.
Qed.

(** A node given a state without the channels it reads raises [KeyError]
    before it calls anything. *)
Lemma chat_by_llm1_node_unset (state : GraphState) w :
  state !! "llm1_prompt_instructions" = None ->
  chat_by_llm1_node svc state w = (Raise KeyError, w).
Proof.
  intros H. unfold chat_by_llm1_node. run_monad.
  rewrite (state_get_None _ _ _ H). reflexivity.
Qed.

End Nodes.

(** ** The run of the graph *)


Section GraphRun.

Context (svc : Services).

Lemma merge_state1 (u m : string) :
  ({[ "input" := u; "retrieved_memory" := m; "llm1_prompt_instructions" := "" ]}
     : GraphState) ∪ state0 u = state1 u m.
Proof. vm_compute. reflexivity. Qed.

Lemma merge_state2 (u m i : string) :
  ({[ "input" := u; "retrieved_memory" := m; "llm1_prompt_instructions" := i ]}
     : GraphState) ∪ state1 u m = state2 u m i.
Proof. vm_compute. reflexivity. Qed.

Lemma merge_state3 (u m i r : string) :
  ({[ "response" := r; "llm1_prompt_instructions" := i ]} : GraphState) ∪ state2 u m i
  = state3 u m i r.
Proof. vm_compute. reflexivity. Qed.

(** [build_graph] wires the three nodes into one chain. *)
Lemma invoke_graph_chain (input : GraphState) :
  Graph.invoke (graph svc) input =
    (_ ← Graph.log_node "retrieve_memory" input;
     update1 ← retrieve_memory_node svc input;
     let s1 : GraphState := update1 ∪ input in
     _ ← Graph.log_node "prompt_guidance" s1;
     update2 ← prompt_guidance_node svc s1;
     let s2 : GraphState := update2 ∪ s1 in
     _ ← Graph.log_node "chat_by_llm1" s2;
     update3 ← chat_by_llm1_node svc s2;
     mret (update3 ∪ s2)).
Proof. reflexivity. Qed.

Ltac close_run := split; simpl; rewrite ?app_nil_r, <- ?app_assoc; reflexivity.

Lemma invoke_graph_outcome (u : string) (w : World) :
  exists o, runs_as u w o (Graph.invoke (graph svc) (state0 u) w).1
                          (Graph.invoke (graph svc) (state0 u) w).2.
Proof.
  rewrite invoke_graph_chain.
  unfold mbind, M_bind, mret, M_ret, Graph.log_node, modify.
  rewrite (retrieve_memory_node_run svc (state0 u) u); [| reflexivity].
  cbv zeta.
  match goal with |- context [search_memory svc ?w1 u] =>
    destruct (search_memory svc w1 u) as [rs|e] end.
  2:{ exists (SearchFailed e). close_run. }
  rewrite merge_state1.
  rewrite (prompt_guidance_node_run svc _ u (retrieved_memory_of rs));
    [| reflexivity | reflexivity].
  cbv zeta.
  match goal with |- context [complete svc ?w1 llm2 ?p] =>
    destruct (complete svc w1 llm2 p) as [i|e] end.
  2:{ exists (PlanningFailed rs e). close_run. }
  rewrite merge_state2.
  rewrite (chat_by_llm1_node_run svc _ u (retrieved_memory_of rs) i);
    [| reflexivity | reflexivity | reflexivity].
  cbv zeta.
  match goal with |- context [complete svc ?w1 llm1 ?p] =>
    destruct (complete svc w1 llm1 p) as [r|e] end.
  2:{ exists (GenerationFailed rs i e). close_run. }
  match goal with |- context [create_memory svc ?w1 ?c] =>
    destruct (create_memory svc w1 c) as [e|] end.
  - exists (CreateFailed rs i r e). close_run.
  - rewrite merge_state3. exists (Completed rs i r). close_run.
Qed.

End GraphRun.

(** ** One turn of the chat *)

Section Turn.

Context (svc : Services).

Lemma state3_response (u m i r : string) : state3 u m i r !! "response" = Some r.
Proof. vm_compute. reflexivity. Qed.

Lemma state3_instructions (u m i r : string) :
  state3 u m i r !! "llm1_prompt_instructions" = Some i.
Proof. vm_compute. reflexivity. Qed.

Lemma chat_turn_outcome (text : string) (w : World) :
  truthy text = true ->
  exists o,
    runs_as text (turn_start text w) o
      (Graph.invoke (graph svc) (state0 text) (turn_start text w)).1
      (Graph.invoke (graph svc) (state0 text) (turn_start text w)).2 /\
    turn_as text w o (chat_turn svc (Some text) w).1 (chat_turn svc (Some text) w).2.
Proof.
  intros Htext.
  destruct (invoke_graph_outcome svc text (turn_start text w)) as [o Ho].
  exists o. split; [exact Ho |].
  unfold chat_turn. rewrite Htext.
  unfold handle_input, generate_reply, try_except, fresh_names, append_message,
    show, assign_result, assign_reply, name_result, name_reply.
  unfold mbind, M_bind, mret, M_ret, modify.
  fold (state0 text). fold (turn_start text w).
  destruct (Graph.invoke (graph svc) (state0 text) (turn_start text w)) as [r wf].
  destruct Ho as [Hr Hmsg Hdbg Hmem Hres Hrep Hui Hllm Hsto Htr].
  simpl in Hr, Hmsg, Hdbg, Hmem, Hres, Hrep, Hui, Hllm, Hsto, Htr. subst r.
  destruct o as [e|rs e|rs i e|rs i rp e|rs i rp]; simpl;
    rewrite ?(state_get_Some _ _ _ _ (state3_response _ _ _ _)); simpl;
    rewrite ?state3_instructions, ?Hres; simpl;
    (split; simpl; rewrite ?Hmsg, ?Hui, ?Hmem, ?Hllm, ?Hsto, ?Htr, ?Hdbg, ?Hres; simpl;
     rewrite ?app_nil_r, <- ?app_assoc; reflexivity).
Qed.

End Turn.

Lemma str_app_assoc (a b c : string) : (a +:+ b) +:+ c = a +:+ (b +:+ c).
Proof.
  induction a as [|x a IH]; [reflexivity |].
  change (String x ((a +:+ b) +:+ c) = String x (a +:+ (b +:+ c))).
  rewrite IH. reflexivity.
Qed.


Lemma str_app_nil_r (a : string) : a +:+ "" = a.
Proof.
  induction a as [|x a IH]; [reflexivity |].
  change (String x (a +:+ "") = String x a). rewrite IH. reflexivity.
Qed.

(** ** Retrieval *)

(** C1, as the code behaves: a search that returns the single bare string
    "User loves jazz" makes [retrieve_memory_node] return the
    no-related-memory text, not the string: the comprehension's
    [isinstance(r, dict)] test leaves the item out without raising, so the
    [except] branch that would convert it with [str] is not reached. *)
Theorem retrieve_bare_string_gives_no_memory svc (state : GraphState) w u :
  state !! "input" = Some u ->
  search_memory svc w u = Ok [PyStr "User loves jazz"] ->
  (retrieve_memory_node svc state w).1 =
    Ok {[ "input" := u; "retrieved_memory" := no_memory;
          "llm1_prompt_instructions" := "" ]}
  /\ no_memory <> "User loves jazz".
Proof.
  intros Hin Hs. rewrite (retrieve_memory_node_run svc state u w Hin).
  cbv zeta. rewrite Hs. split; [reflexivity | discriminate].
Qed.

Lemma retrieve_bare_string_gives_no_memory_witness :
  (retrieve_memory_node jazz_services (state0 "hello") empty_world).1 =
    Ok {[ "input" := "hello"; "retrieved_memory" := no_memory;
          "llm1_prompt_instructions" := "" ]}
  /\ no_memory <> "User loves jazz".
Proof.
  apply (retrieve_bare_string_gives_no_memory jazz_services (state0 "hello")
           empty_world "hello"); reflexivity.
Defined.



(** ** Failures of the provider and of the store *)

Section Failures.

Context (svc : Services).

(** Membership in a short explicit list, case by case. *)
Ltac cases_in H :=
  repeat (apply elem_of_cons in H as [H|H]; [try subst |]);
  try (apply elem_of_nil in H; destruct H).

Lemma new_llm_calls_turn text w o r w' :
  turn_as text w o r w' -> new_llm_calls w w' = run_llm_calls text o.
Proof.
  intros H. unfold new_llm_calls. rewrite (ta_llm_calls _ _ _ _ _ H).
  apply drop_app_length.
Qed.

Lemma new_store_calls_turn text w o r w' :
  turn_as text w o r w' -> new_store_calls w w' = run_store_calls text o.
Proof.
  intros H. unfold new_store_calls. rewrite (ta_store_calls _ _ _ _ _ H).
  apply drop_app_length.
Qed.

(** The [try] statement catches every exception: it always completes. *)
Lemma generate_reply_completes text w : (generate_reply svc text w).1 = Ok tt.
Proof.
  unfold generate_reply, try_except, any_Exception.
  unfold mbind, M_bind, assign_result, assign_reply, show, modify, name_result.
  destruct (Graph.invoke (graph svc) {[ "input" := text ]} w) as [[s|e] w1];
    [| reflexivity].
  simpl. unfold state_get. destruct (s !! "response"); reflexivity.
Qed.

(** A failed run shows the error and the fallback reply, and stores
    nothing. *)
Lemma failed_turn text w o e :
  run_result text o = Raise e ->
  turn_as text w o (chat_turn svc (Some text) w).1 (chat_turn svc (Some text) w).2 ->
  (chat_turn svc (Some text) w).1 = Raise NameError /\
  messages (chat_turn svc (Some text) w).2 =
    messages w ++ [HumanMessage text; AIMessage fallback_reply] /\
  ui (chat_turn svc (Some text) w).2 =
    ui w ++ [ChatMessage "🧑‍💻" text; StError e; ChatMessage "🤖" fallback_reply;
             StMarkdown "### ✉️ LLM2からの指示:"] /\
  var_reply (chat_turn svc (Some text) w).2 = Some fallback_reply /\
  var_result (chat_turn svc (Some text) w).2 = None /\
  memories (chat_turn svc (Some text) w).2 = memories w.
Proof.
  intros He [Hr Hmsg _ Hmem Hres Hrep Hui _ _ _].
  rewrite Hr, Hmsg, Hmem, Hres, Hrep, Hui.
  unfold turn_ui, turn_var_result. rewrite He.
  destruct o; try discriminate He; simpl; rewrite app_nil_r; repeat split.
Qed.

(** C3: in every turn in which a call of the completion provider raises,
    be it the planning call or the generation call, the [try] statement
    completes instead of passing the exception on, the reply appended to
    the conversation and shown is the fixed fallback text, and no turn is
    stored: the manage tool is not invoked at all. *)
Theorem provider_failure_gives_fallback text w c e :
  truthy text = true ->
  c ∈ new_llm_calls w (chat_turn svc (Some text) w).2 ->
  answer c = Raise e ->
  (generate_reply svc text (turn_start text w)).1 = Ok tt /\
  var_reply (chat_turn svc (Some text) w).2 = Some fallback_reply /\
  messages (chat_turn svc (Some text) w).2 =
    messages w ++ [HumanMessage text; AIMessage fallback_reply] /\
  ChatMessage "🤖" fallback_reply ∈ ui (chat_turn svc (Some text) w).2 /\
  memories (chat_turn svc (Some text) w).2 = memories w /\
  (forall content failure,
     Create content failure ∉ new_store_calls w (chat_turn svc (Some text) w).2).
Proof.
  intros Htext Hc Ha.
  destruct (chat_turn_outcome svc text w Htext) as [o [_ Hturn]].
  rewrite (new_llm_calls_turn _ _ _ _ _ Hturn) in Hc.
  rewrite (new_store_calls_turn _ _ _ _ _ Hturn).
  split; [apply generate_reply_completes |].
  assert (Hfail : exists e', run_result text o = Raise e' /\
            forall content failure, Create content failure ∉ run_store_calls text o).
  { destruct o as [e0|rs e0|rs i e0|rs i rp e0|rs i rp]; simpl in Hc; cases_in Hc;
      simpl in Ha; try discriminate Ha;
      (eexists; split; [reflexivity |]); intros content failure Hin; simpl in Hin;
      cases_in Hin; discriminate Hin. }
  destruct Hfail as [e' [He' Hno]].
  destruct (failed_turn text w o e' He' Hturn) as (_ & Hmsg & Hui & Hrep & _ & Hmem).
  repeat split; try assumption.
  rewrite Hui. set_solver.
Qed.

(** C5, as the code behaves: in every turn in which the manage tool's create
    fails, the provider had answered with a reply, the content to store
    paired the input with that reply, and the failure leaves the graph as
    an exception: the turn shows it as an error, the reply appended to the
    conversation and shown is the fixed fallback text, and nothing is
    stored. *)
Theorem create_failure_gives_fallback text w content e :
  truthy text = true ->
  Create content (Some e) ∈ new_store_calls w (chat_turn svc (Some text) w).2 ->
  (exists rs instructions response,
     content = stored_turn text response /\
     generation_call text rs instructions (Ok response)
       ∈ new_llm_calls w (chat_turn svc (Some text) w).2) /\
  (Graph.invoke (graph svc) (state0 text) (turn_start text w)).1 = Raise e /\
  messages (chat_turn svc (Some text) w).2 =
    messages w ++ [HumanMessage text; AIMessage fallback_reply] /\
  ui (chat_turn svc (Some text) w).2 =
    ui w ++ [ChatMessage "🧑‍💻" text; StError e; ChatMessage "🤖" fallback_reply;
             StMarkdown "### ✉️ LLM2からの指示:"] /\
  memories (chat_turn svc (Some text) w).2 = memories w.
Proof.
  intros Htext Hc.
  destruct (chat_turn_outcome svc text w Htext) as [o [Hrun Hturn]].
  rewrite (new_store_calls_turn _ _ _ _ _ Hturn) in Hc.
  rewrite (new_llm_calls_turn _ _ _ _ _ Hturn), (ra_result _ _ _ _ _ Hrun).
  destruct o as [e0|rs e0|rs i e0|rs i rp e0|rs i rp]; simpl in Hc; cases_in Hc;
    try discriminate Hc.
  injection Hc as -> ->.
  destruct (failed_turn text w (CreateFailed rs i rp e0) e0 eq_refl Hturn)
    as (_ & Hmsg & Hui & _ & _ & Hmem).
  split; [| repeat split; assumption].
  exists rs, i, rp. split; [reflexivity |]. simpl. set_solver.
Qed.

(** C6, as the code behaves: a search that raises makes
    [retrieve_memory_node] raise the same exception; and in every turn in
    which the search raised, the graph stops at the first node with that
    exception, the provider is not called, and the turn shows the error and
    the fixed fallback reply. *)
Theorem search_failure_propagates :
  (forall (state : GraphState) w u e,
     state !! "input" = Some u ->
     search_memory svc w u = Raise e ->
     (retrieve_memory_node svc state w).1 = Raise e) /\
  (forall text w query e,
     truthy text = true ->
     Search query (Raise e) ∈ new_store_calls w (chat_turn svc (Some text) w).2 ->
     (Graph.invoke (graph svc) (state0 text) (turn_start text w)).1 = Raise e /\
     map fst (drop (length (node_trace w)) (node_trace (chat_turn svc (Some text) w).2))
       = ["retrieve_memory"] /\
     new_llm_calls w (chat_turn svc (Some text) w).2 = [] /\
     messages (chat_turn svc (Some text) w).2 =
       messages w ++ [HumanMessage text; AIMessage fallback_reply] /\
     ui (chat_turn svc (Some text) w).2 =
       ui w ++ [ChatMessage "🧑‍💻" text; StError e; ChatMessage "🤖" fallback_reply;
                StMarkdown "### ✉️ LLM2からの指示:"]).
Proof.
  split.
  - intros state w u e Hin Hs.
    rewrite (retrieve_memory_node_run svc state u w Hin). cbv zeta.
    rewrite Hs. reflexivity.
  - intros text w query e Htext Hc.
    destruct (chat_turn_outcome svc text w Htext) as [o [Hrun Hturn]].
    rewrite (new_store_calls_turn _ _ _ _ _ Hturn) in Hc.
    rewrite (new_llm_calls_turn _ _ _ _ _ Hturn), (ra_result _ _ _ _ _ Hrun),
      (ta_node_trace _ _ _ _ _ Hturn), drop_app_length.
    destruct o as [e0|rs e0|rs i e0|rs i rp e0|rs i rp]; simpl in Hc; cases_in Hc;
      try discriminate Hc.
    injection Hc as -> ->.
    destruct (failed_turn text w (SearchFailed e0) e0 eq_refl Hturn)
      as (_ & Hmsg & Hui & _ & _ & _).
    repeat split; assumption.
Qed.

(** C10: in every turn in which the invocation of the graph raises, the
    fallback reply is appended to the conversation and shown, the name
    [result] is still unbound, and the turn ends with [NameError] at the
    display of the instructions, of which no code block is drawn. *)
Theorem fallback_turn_raises_NameError text w e :
  truthy text = true ->
  (Graph.invoke (graph svc) (state0 text) (turn_start text w)).1 = Raise e ->
  (chat_turn svc (Some text) w).1 = Raise NameError /\
  var_result (chat_turn svc (Some text) w).2 = None /\
  var_reply (chat_turn svc (Some text) w).2 = Some fallback_reply /\
  messages (chat_turn svc (Some text) w).2 =
    messages w ++ [HumanMessage text; AIMessage fallback_reply] /\
  ui (chat_turn svc (Some text) w).2 =
    ui w ++ [ChatMessage "🧑‍💻" text; StError e; ChatMessage "🤖" fallback_reply;
             StMarkdown "### ✉️ LLM2からの指示:"].
Proof.
  intros Htext He.
  destruct (chat_turn_outcome svc text w Htext) as [o [Hrun Hturn]].
  rewrite (ra_result _ _ _ _ _ Hrun) in He.
  destruct (failed_turn text w o e He Hturn) as (Hr & Hmsg & Hui & Hrep & Hres & _).
  repeat split; assumption.
Qed.

(** A turn whose run completes binds [result] and ends normally. *)
Lemma completed_turn_returns text w s :
  truthy text = true ->
  (Graph.invoke (graph svc) (state0 text) (turn_start text w)).1 = Ok s ->
  (chat_turn svc (Some text) w).1 = Ok tt /\
  var_result (chat_turn svc (Some text) w).2 = Some s.
Proof.
  intros Htext Hs.
  destruct (chat_turn_outcome svc text w Htext) as [o [Hrun Hturn]].
  rewrite (ra_result _ _ _ _ _ Hrun) in Hs.
  rewrite (ta_result _ _ _ _ _ Hturn), (ta_var_result _ _ _ _ _ Hturn).
  unfold turn_var_result. rewrite Hs.
  destruct o; try discriminate Hs. split; reflexivity.
Qed.

End Failures.

Lemma provider_failure_gives_fallback_witness :
  let w' := (chat_turn generation_down (Some "hi") empty_world).2 in
  (generate_reply generation_down "hi" (turn_start "hi" empty_world)).1 = Ok tt /\
  var_reply w' = Some fallback_reply /\
  messages w' = messages empty_world ++ [HumanMessage "hi"; AIMessage fallback_reply] /\
  ChatMessage "🤖" fallback_reply ∈ ui w' /\
  memories w' = memories empty_world /\
  (forall content failure, Create content failure ∉ new_store_calls empty_world w').
Proof.
  apply (provider_failure_gives_fallback generation_down "hi" empty_world
           (generation_call "hi" [] "plan" (Raise ProviderFailure)) ProviderFailure).
  - reflexivity.
  - vm_compute. right. left.
  - reflexivity.
Defined.

(** C5 fails on the code: the provider answers "reply", the create that
    follows fails, and "reply" reaches neither the conversation nor the
    page. *)
Lemma create_failure_loses_reply :
  let w' := (chat_turn create_down (Some "hi") empty_world).2 in
  generation_call "hi" [] "plan" (Ok "reply") ∈ new_llm_calls empty_world w' /\
  Create (stored_turn "hi" "reply") (Some StoreUnavailable)
    ∈ new_store_calls empty_world w' /\
  (AIMessage "reply" ∉ messages w') /\
  (forall avatar, ChatMessage avatar "reply" ∉ ui w').
Proof.
  cbv zeta. split; [vm_compute; right; left |].
  split; [vm_compute; right; left |].
  change (messages (chat_turn create_down (Some "hi") empty_world).2)
    with [HumanMessage "hi"; AIMessage fallback_reply].
  change (ui (chat_turn create_down (Some "hi") empty_world).2)
    with [ChatMessage "🧑‍💻" "hi"; StError StoreUnavailable;
          ChatMessage "🤖" fallback_reply; StMarkdown "### ✉️ LLM2からの指示:"].
  split.
  - intros H. repeat (apply elem_of_cons in H as [H|H]; [discriminate H |]).
    apply elem_of_nil in H. exact H.
  - intros avatar H. repeat (apply elem_of_cons in H as [H|H]; [discriminate H |]).
    apply elem_of_nil in H. exact H.
Qed.

Lemma create_failure_gives_fallback_witness :
  let w' := (chat_turn create_down (Some "hi") empty_world).2 in
  (exists rs instructions response,
     stored_turn "hi" "reply" = stored_turn "hi" response /\
     generation_call "hi" rs instructions (Ok response) ∈ new_llm_calls empty_world w') /\
  (Graph.invoke (graph create_down) (state0 "hi") (turn_start "hi" empty_world)).1
    = Raise StoreUnavailable /\
  messages w' = messages empty_world ++ [HumanMessage "hi"; AIMessage fallback_reply] /\
  ui w' =
    ui empty_world ++
      [ChatMessage "🧑‍💻" "hi"; StError StoreUnavailable;
       ChatMessage "🤖" fallback_reply; StMarkdown "### ✉️ LLM2からの指示:"] /\
  memories w' = memories empty_world.
Proof.
  apply (create_failure_gives_fallback create_down "hi" empty_world
           (stored_turn "hi" "reply") StoreUnavailable).
  - reflexivity.
  - vm_compute. right. left.
Defined.

(** C6 fails on the code: with a store whose search raises,
    [retrieve_memory_node] raises too and returns no update. *)
Lemma search_failure_not_absorbed :
  ((retrieve_memory_node search_down (state0 "hi") empty_world).1
     = Raise StoreUnavailable) /\
  ~ (exists update,
       (retrieve_memory_node search_down (state0 "hi") empty_world).1 = Ok update).
Proof.
  split; [reflexivity |]. intros [update H]. discriminate H.
Qed.

Lemma search_failure_propagates_witness :
  let w' := (chat_turn search_down (Some "hi") empty_world).2 in
  (retrieve_memory_node search_down (state0 "hi") empty_world).1 = Raise StoreUnavailable /\
  (Graph.invoke (graph search_down) (state0 "hi") (turn_start "hi" empty_world)).1
    = Raise StoreUnavailable /\
  new_llm_calls empty_world w' = [] /\
  messages w' = messages empty_world ++ [HumanMessage "hi"; AIMessage fallback_reply].
Proof.
  destruct (search_failure_propagates search_down) as [Hnode Hturn].
  split.
  - apply (Hnode (state0 "hi") empty_world "hi" StoreUnavailable); reflexivity.
  - destruct (Hturn "hi" empty_world "hi" StoreUnavailable) as (H1 & _ & H2 & H3 & _).
    + reflexivity.
    + vm_compute. left.
    + repeat split; assumption.
Defined.

Lemma fallback_turn_raises_NameError_witness :
  let w' := (chat_turn generation_down (Some "hi") empty_world).2 in
  (chat_turn generation_down (Some "hi") empty_world).1 = Raise NameError /\
  var_result w' = None /\
  var_reply w' = Some fallback_reply /\
  messages w' = messages empty_world ++ [HumanMessage "hi"; AIMessage fallback_reply] /\
  ui w' =
    ui empty_world ++
      [ChatMessage "🧑‍💻" "hi"; StError ProviderFailure;
       ChatMessage "🤖" fallback_reply; StMarkdown "### ✉️ LLM2からの指示:"].
Proof.
  apply (fallback_turn_raises_NameError generation_down "hi" empty_world ProviderFailure);
    reflexivity.
Defined.

(** ** Generation and persistence *)

(** C4: whenever [chat_by_llm1_node] returns, the manage tool was invoked
    exactly once, for a create that succeeded; exactly one content was
    added to the store, built from the state's input and the provider's
    answer, and both occur verbatim in it. *)
Theorem generation_stores_one_turn svc (state : GraphState) w update w' :
  chat_by_llm1_node svc state w = (Ok update, w') ->
  exists input response c,
    state !! "input" = Some input /\
    new_llm_calls w w' = [c] /\ answer c = Ok response /\
    update !! "response" = Some response /\
    new_store_calls w w' = [Create (stored_turn input response) None] /\
    memories w' = memories w ++ [stored_turn input response] /\
    occurs_in input (stored_turn input response) /\
    occurs_in response (stored_turn input response).
Proof.
  intros H.
  destruct (state !! "llm1_prompt_instructions") as [i|] eqn:Hi;
    [| rewrite (chat_by_llm1_node_unset svc state w Hi) in H; discriminate H].
  destruct (state !! "retrieved_memory") as [m|] eqn:Hm.
  2:{ unfold chat_by_llm1_node, mbind, M_bind in H.
      rewrite (state_get_Some _ _ _ _ Hi), (state_get_None _ _ _ Hm) in H.
      discriminate H. }
  destruct (state !! "input") as [u|] eqn:Hu.
  2:{ unfold chat_by_llm1_node, mbind, M_bind in H.
      rewrite (state_get_Some _ _ _ _ Hi), (state_get_Some _ _ _ _ Hm),
        (state_get_None _ _ _ Hu) in H.
      discriminate H. }
  rewrite (chat_by_llm1_node_run svc state u m i w Hu Hm Hi) in H. cbv zeta in H.
  destruct (complete svc w llm1 (chat_prompt i m u)) as [r|e] eqn:Ha;
    [| discriminate H].
  match type of H with context [create_memory svc ?w1 ?c] =>
    destruct (create_memory svc w1 c) as [e|]; [discriminate H |] end.
  injection H as <- <-.
  exists u, r, {| llm := llm1; prompt := chat_prompt i m u; answer := Ok r |}.
  unfold new_llm_calls, new_store_calls. simpl. rewrite !drop_app_length.
  repeat split; try reflexivity.
  - exists "ユーザー: ", (nl +:+ "ひびき: " +:+ r). reflexivity.
  - exists ("ユーザー: " +:+ u +:+ nl +:+ "ひびき: "), "".
    unfold stored_turn. rewrite str_app_nil_r, !str_app_assoc. reflexivity.
Qed.

Lemma generation_stores_one_turn_witness :
  let state := state2 "hi" no_memory "plan" in
  let w' := (chat_by_llm1_node jazz_services state empty_world).2 in
  exists input response c,
    state !! "input" = Some input /\
    new_llm_calls empty_world w' = [c] /\ answer c = Ok response /\
    ({[ "response" := "reply"; "llm1_prompt_instructions" := "plan" ]} : GraphState)
      !! "response" = Some response /\
    new_store_calls empty_world w' = [Create (stored_turn input response) None] /\
    memories w' = memories empty_world ++ [stored_turn input response] /\
    occurs_in input (stored_turn input response) /\
    occurs_in response (stored_turn input response).
Proof.
  apply (generation_stores_one_turn jazz_services (state2 "hi" no_memory "plan")
           empty_world).
  reflexivity.
Defined.

(** ** Order of the stages *)

Section Order.

Context (svc : Services).

Lemma state1_retrieved_memory (u m : string) :
  state1 u m !! "retrieved_memory" = Some m.
Proof. vm_compute. reflexivity. Qed.

(** C7: the graph is one chain, each node with a single edge to the next;
    every run executes a prefix of retrieval, planning, generation, in this
    order and each at most once, all three when the run returns; and the
    state the planning node receives holds under "retrieved_memory" the
    text retrieval made of the records found by this run's search. *)
Theorem stages_run_in_order (u : string) (w : World) :
  Graph.entry_point (graph svc) = Some "retrieve_memory" /\
  Graph.edges (graph svc) =
    [("retrieve_memory", "prompt_guidance"); ("prompt_guidance", "chat_by_llm1");
     ("chat_by_llm1", Graph.END)] /\
  exists trace,
    node_trace (Graph.invoke (graph svc) (state0 u) w).2 = node_trace w ++ trace /\
    map fst trace `prefix_of` ["retrieve_memory"; "prompt_guidance"; "chat_by_llm1"] /\
    trace <> [] /\
    (forall s, (Graph.invoke (graph svc) (state0 u) w).1 = Ok s ->
       map fst trace = ["retrieve_memory"; "prompt_guidance"; "chat_by_llm1"]) /\
    (forall s, ("prompt_guidance", s) ∈ trace ->
       exists rs,
         Search u (Ok rs) ∈ new_store_calls w (Graph.invoke (graph svc) (state0 u) w).2 /\
         s !! "retrieved_memory" = Some (retrieved_memory_of rs)).
Proof.
  split; [reflexivity |]. split; [reflexivity |].
  destruct (invoke_graph_outcome svc u w) as [o Ho].
  exists (run_nodes u o).
  split; [apply (ra_node_trace _ _ _ _ _ Ho) |].
  unfold new_store_calls.
  rewrite (ra_result _ _ _ _ _ Ho), (ra_store_calls _ _ _ _ _ Ho), drop_app_length.
  destruct o as [e|rs e|rs i e|rs i rp e|rs i rp]; simpl;
    (split; [eexists; reflexivity |]); (split; [discriminate |]);
    (split; [intros s Hs; try discriminate Hs; reflexivity |]);
    intros s Hs;
    repeat (apply elem_of_cons in Hs as [Hs|Hs]; [try discriminate Hs |]);
    try (apply elem_of_nil in Hs; destruct Hs);
    injection Hs as ->; exists rs;
    (split; [set_solver | apply state1_retrieved_memory]).
Qed.

(** ** Sampling temperatures *)

(** C9: the calls a run makes to the provider are at most two; the first
    carries the planning prompt and the planning model's settings, the
    second the reply prompt and the reply model's settings; and the
    temperature of the first, 0.3, is strictly below that of the second,
    0.7. *)
Theorem planning_temperature_lower (u : string) (w : World) :
  (temperature llm2 == 0.3)%Q /\ (temperature llm1 == 0.7)%Q /\
  exists calls,
    llm_calls (Graph.invoke (graph svc) (state0 u) w).2 = llm_calls w ++ calls /\
    length calls <= 2 /\
    (forall s, (Graph.invoke (graph svc) (state0 u) w).1 = Ok s -> length calls = 2) /\
    (forall cp, calls !! 0 = Some cp ->
       llm cp = llm2 /\ exists m, prompt cp = guidance_prompt u m) /\
    (forall cg, calls !! 1 = Some cg ->
       llm cg = llm1 /\ exists i m, prompt cg = chat_prompt i m u) /\
    (forall cp cg, calls !! 0 = Some cp -> calls !! 1 = Some cg ->
       (temperature (llm cp) < temperature (llm cg))%Q).
Proof.
  split; [reflexivity |]. split; [reflexivity |].
  destruct (invoke_graph_outcome svc u w) as [o Ho].
  exists (run_llm_calls u o).
  split; [apply (ra_llm_calls _ _ _ _ _ Ho) |].
  rewrite (ra_result _ _ _ _ _ Ho).
  destruct o as [e|rs e|rs i e|rs i rp e|rs i rp]; simpl;
    (split; [lia |]); (split; [intros s Hs; try discriminate Hs; reflexivity |]);
    (split;
       [intros cp Hcp;
        first [discriminate Hcp
              | injection Hcp as <-; split; [reflexivity | eexists; reflexivity]] |]);
    (split;
       [intros cg Hcg;
        first [discriminate Hcg
              | injection Hcg as <-; split; [reflexivity | do 2 eexists; reflexivity]] |]);
    intros cp cg Hcp Hcg;
    first [discriminate Hcg | injection Hcp as <-; injection Hcg as <-; reflexivity].
Qed.

End Order.

(** ** Which channels a node writes *)

Section Frames.

Context (svc : Services).

Lemma retrieve_memory_node_unset (state : GraphState) w :
  state !! "input" = None -> retrieve_memory_node svc state w = (Raise KeyError, w).
Proof.
  intros H. unfold retrieve_memory_node, mbind, M_bind.
  rewrite (state_get_None _ _ _ H). reflexivity.
Qed.

Lemma retrieve_memory_node_update (state : GraphState) w update w' :
  retrieve_memory_node svc state w = (Ok update, w') ->
  exists u m,
    state !! "input" = Some u /\
    update = {[ "input" := u; "retrieved_memory" := m;
                "llm1_prompt_instructions" := "" ]}.
Proof.
  intros H. destruct (state !! "input") as [u|] eqn:Hu;
    [| rewrite (retrieve_memory_node_unset state w Hu) in H; discriminate H].
  rewrite (retrieve_memory_node_run svc state u w Hu) in H. cbv zeta in H.
  destruct (search_memory svc w u) as [rs|e]; [| discriminate H].
  injection H as <- _. eauto.
Qed.

Lemma prompt_guidance_node_update (state : GraphState) w update w' :
  prompt_guidance_node svc state w = (Ok update, w') ->
  exists u m i,
    state !! "input" = Some u /\ state !! "retrieved_memory" = Some m /\
    update = {[ "input" := u; "retrieved_memory" := m;
                "llm1_prompt_instructions" := i ]}.
Proof.
  intros H. destruct (state !! "input") as [u|] eqn:Hu.
  2:{ unfold prompt_guidance_node, mbind, M_bind in H.
      rewrite (state_get_None _ _ _ Hu) in H. discriminate H. }
  destruct (state !! "retrieved_memory") as [m|] eqn:Hm.
  2:{ unfold prompt_guidance_node, mbind, M_bind in H.
      rewrite (state_get_Some _ _ _ _ Hu), (state_get_None _ _ _ Hm) in H.
      discriminate H. }
  rewrite (prompt_guidance_node_run svc state u m w Hu Hm) in H. cbv zeta in H.
  destruct (complete svc w llm2 (guidance_prompt u m)) as [i|e]; [| discriminate H].
  injection H as <- _. exists u, m, i. repeat split.
Qed.

Lemma chat_by_llm1_node_update (state : GraphState) w update w' :
  chat_by_llm1_node svc state w = (Ok update, w') ->
  exists i r,
    state !! "llm1_prompt_instructions" = Some i /\
    update = {[ "response" := r; "llm1_prompt_instructions" := i ]}.
Proof.
  intros H.
  destruct (state !! "llm1_prompt_instructions") as [i|] eqn:Hi;
    [| rewrite (chat_by_llm1_node_unset svc state w Hi) in H; discriminate H].
  destruct (state !! "retrieved_memory") as [m|] eqn:Hm.
  2:{ unfold chat_by_llm1_node, mbind, M_bind in H.
      rewrite (state_get_Some _ _ _ _ Hi), (state_get_None _ _ _ Hm) in H.
      discriminate H. }
  destruct (state !! "input") as [u|] eqn:Hu.
  2:{ unfold chat_by_llm1_node, mbind, M_bind in H.
      rewrite (state_get_Some _ _ _ _ Hi), (state_get_Some _ _ _ _ Hm),
        (state_get_None _ _ _ Hu) in H.
      discriminate H. }
  rewrite (chat_by_llm1_node_run svc state u m i w Hu Hm Hi) in H. cbv zeta in H.
  destruct (complete svc w llm1 (chat_prompt i m u)) as [r|e]; [| discriminate H].
  match type of H with context [create_memory svc ?w1 ?c] =>
    destruct (create_memory svc w1 c) as [e|]; [discriminate H |] end.
  injection H as <- _. eauto.
Qed.

(** C8, as the code behaves: retrieval writes "retrieved_memory" and also
    sets "llm1_prompt_instructions" to the empty text; planning writes only
    "llm1_prompt_instructions"; generation writes only "response"; every
    other channel holds after the node what it held before. *)
Theorem nodes_write_their_channels :
  writes_only (retrieve_memory_node svc) ["retrieved_memory"; "llm1_prompt_instructions"] /\
  (forall (state : GraphState) w update w',
     retrieve_memory_node svc state w = (Ok update, w') ->
     (update ∪ state) !! "llm1_prompt_instructions" = Some "") /\
  writes_only (prompt_guidance_node svc) ["llm1_prompt_instructions"] /\
  writes_only (chat_by_llm1_node svc) ["response"].
Proof.
  repeat split.
  - intros state w update w' H k Hk.
    destruct (retrieve_memory_node_update state w update w' H) as (u & m & Hu & ->).
    apply not_elem_of_cons in Hk as [Hk1 Hk]. apply not_elem_of_cons in Hk as [Hk2 _].
    rewrite lookup_union. destruct (decide (k = "input")) as [->|Hk0].
    + rewrite lookup_insert_eq, Hu. reflexivity.
    + rewrite lookup_insert_ne, lookup_insert_ne, lookup_singleton_ne by congruence.
      destruct (state !! k); reflexivity.
  - intros state w update w' H.
    destruct (retrieve_memory_node_update state w update w' H) as (u & m & Hu & ->).
    rewrite lookup_union. vm_compute ({[ _ := _; _ := _; _ := _ ]} !! _).
    destruct (state !! "llm1_prompt_instructions"); reflexivity.
  - intros state w update w' H k Hk.
    destruct (prompt_guidance_node_update state w update w' H)
      as (u & m & i & Hu & Hm & ->).
    apply not_elem_of_cons in Hk as [Hk1 _].
    rewrite lookup_union. destruct (decide (k = "input")) as [->|Hk0].
    + rewrite lookup_insert_eq, Hu. reflexivity.
    + rewrite lookup_insert_ne by congruence.
      destruct (decide (k = "retrieved_memory")) as [->|Hk2].
      * rewrite lookup_insert_eq, Hm. reflexivity.
      * rewrite lookup_insert_ne, lookup_singleton_ne by congruence.
        destruct (state !! k); reflexivity.
  - intros state w update w' H k Hk.
    destruct (chat_by_llm1_node_update state w update w' H) as (i & r & Hi & ->).
    apply not_elem_of_cons in Hk as [Hk1 _].
    rewrite lookup_union, lookup_insert_ne by congruence.
    destruct (decide (k = "llm1_prompt_instructions")) as [->|Hk2].
    + rewrite lookup_singleton_eq, Hi. reflexivity.
    + rewrite lookup_singleton_ne by congruence. destruct (state !! k); reflexivity.
Qed.

End Frames.

(** C8 fails on the code: in the first step of a run, before retrieval the
    channel "llm1_prompt_instructions" is unset, and after it the channel
    holds the empty text, written by the retrieval node. *)
Lemma retrieval_writes_instructions :
  ~ writes_only (retrieve_memory_node jazz_services) ["retrieved_memory"].
Proof.
  intros H.
  specialize (H (state0 "hi") empty_world
                {[ "input" := "hi"; "retrieved_memory" := no_memory;
                   "llm1_prompt_instructions" := "" ]}
                (retrieve_memory_node jazz_services (state0 "hi") empty_world).2
                eq_refl "llm1_prompt_instructions").
  assert (Hk : "llm1_prompt_instructions" ∉ ["retrieved_memory"]).
  { intros Hin. apply list_elem_of_singleton in Hin. discriminate Hin. }
  specialize (H Hk). vm_compute in H. discriminate H.
Qed.

Lemma nodes_write_their_channels_witness :
  let state := state0 "hi" in
  let update : GraphState :=
    {[ "input" := "hi"; "retrieved_memory" := no_memory;
       "llm1_prompt_instructions" := "" ]} in
  (retrieve_memory_node jazz_services state empty_world).1 = Ok update /\
  (update ∪ state) !! "input" = state !! "input" /\
  (update ∪ state) !! "response" = state !! "response" /\
  (update ∪ state) !! "llm1_prompt_instructions" = Some "".
Proof.
  intros state update.
  destruct (nodes_write_their_channels jazz_services) as (Hframe & Hinit & _ & _).
  assert (H : retrieve_memory_node jazz_services state empty_world
              = (Ok update, (retrieve_memory_node jazz_services state empty_world).2))
    by reflexivity.
  split; [reflexivity |]. split; [| split].
  - apply (Hframe _ _ _ _ H). intros Hin.
    repeat (apply elem_of_cons in Hin as [Hin|Hin]; [discriminate Hin |]).
    apply elem_of_nil in Hin. exact Hin.
  - apply (Hframe _ _ _ _ H). intros Hin.
    repeat (apply elem_of_cons in Hin as [Hin|Hin]; [discriminate Hin |]).
    apply elem_of_nil in Hin. exact Hin.
  - apply (Hinit _ _ _ _ H).
Defined.

(** * Further properties of the code *)

(** ** Retrieval: which records count *)

Section Shapes.

Lemma well_shaped_kept r s :
  WellShaped r s ->
  has_nested_content r = Ok true /\
  (v ← getitem r "value"; getitem v "content") = Ok (PyStr s).
Proof.
  intros [d d' s' Hv Hc]. unfold has_nested_content. simpl.
  rewrite Hv. simpl. rewrite Hc. simpl. split; reflexivity.
Qed.

Lemma left_out_skipped r : LeftOut r -> has_nested_content r = Ok false.
Proof.
  intros [r' H|d H|d d' Hv Hc|d t Hv Ht|d l Hv Hl]; unfold has_nested_content.
  - rewrite H. reflexivity.
  - simpl. rewrite H. reflexivity.
  - simpl. rewrite Hv. simpl. rewrite Hc. reflexivity.
  - simpl. rewrite Hv. simpl. rewrite Ht. reflexivity.
  - simpl. rewrite Hv. simpl. rewrite Hl. reflexivity.
Qed.

Lemma extracts_contents rs ss :
  Extracts rs ss -> nested_contents rs = Ok (map PyStr ss).
Proof.
  induction 1 as [|r s rs ss Hr _ IH|r rs ss Hr _ IH]; simpl.
  - reflexivity.
  - destruct (well_shaped_kept r s Hr) as [-> Hc]. simpl.
    destruct (getitem r "value") as [v|e]; simpl in Hc; [| discriminate Hc].
    simpl. rewrite Hc. simpl. rewrite IH. reflexivity.
  - rewrite (left_out_skipped r Hr). simpl. exact IH.
Qed.

Lemma join_values_texts sep ss : join_values sep (map PyStr ss) = Ok (join sep ss).
Proof.
  unfold join_values.
  assert (H : join_values_items (map PyStr ss) = Ok ss).
  { induction ss as [|s ss IH]; simpl; [reflexivity | rewrite IH; reflexivity]. }
  rewrite H. reflexivity.
Qed.

Lemma extracts_memory_text rs ss :
  Extracts rs ss -> memory_text_of rs = Ok (join nl ss).
Proof.
  intros H. destruct rs as [|r rs].
  - inversion H. reflexivity.
  - unfold memory_text_of. rewrite (extracts_contents _ _ H). simpl.
    rewrite join_values_texts. reflexivity.
Qed.


End Shapes.

(** X1: when every record of the batch is a mapping with a text under
    "value"/"content" (other keys may be present), the node returns the
    texts joined by line breaks in the order of the batch, or the
    no-related-memory text when that join is empty. *)
Theorem well_shaped_batch_joined svc (state : GraphState) w u rs ss :
  state !! "input" = Some u ->
  search_memory svc w u = Ok rs ->
  Forall2 WellShaped rs ss ->
  (retrieve_memory_node svc state w).1 =
    Ok {[ "input" := u;
          "retrieved_memory" := if truthy (join nl ss) then join nl ss else no_memory;
          "llm1_prompt_instructions" := "" ]}.
Proof.
  intros Hin Hs Hrs.
  assert (He : Extracts rs ss).
  { clear Hs. induction Hrs; [apply extracts_nil | apply extracts_keep; assumption]. }
  rewrite (retrieve_memory_node_run svc state u w Hin). cbv zeta. rewrite Hs.
  unfold retrieved_memory_of. rewrite (extracts_memory_text _ _ He). reflexivity.
Qed.

Lemma well_shaped_batch_joined_witness :
  (retrieve_memory_node
     {| search_memory := fun _ _ => Ok [record_of "User loves jazz"; record_of "User is anxious"];
        create_memory := fun _ _ => None; complete := sample_complete |}
     (state0 "hello") empty_world).1 =
    Ok {[ "input" := "hello";
          "retrieved_memory" := "User loves jazz" +:+ nl +:+ "User is anxious";
          "llm1_prompt_instructions" := "" ]}.
Proof.
  apply (well_shaped_batch_joined _ (state0 "hello") empty_world "hello"
           [record_of "User loves jazz"; record_of "User is anxious"]
           ["User loves jazz"; "User is anxious"]).
  - reflexivity.
  - reflexivity.
  - repeat constructor; (eapply well_shaped; reflexivity).
Defined.

(** X2: records that are no mapping, or have no "value", or whose "value"
    has no "content" in it, are dropped silently: when every record is
    well shaped or of that kind, the node returns the join of the
    well-shaped records' texts alone (the no-related-memory text when that
    join is empty), and nothing is converted with [str]. *)
Theorem left_out_records_dropped svc (state : GraphState) w u rs ss :
  state !! "input" = Some u ->
  search_memory svc w u = Ok rs ->
  Extracts rs ss ->
  memory_text_of rs = Ok (join nl ss) /\
  (retrieve_memory_node svc state w).1 =
    Ok {[ "input" := u;
          "retrieved_memory" := if truthy (join nl ss) then join nl ss else no_memory;
          "llm1_prompt_instructions" := "" ]}.
Proof.
  intros Hin Hs He.
  pose proof (extracts_memory_text rs ss He) as Hm.
  split; [exact Hm |].
  rewrite (retrieve_memory_node_run svc state u w Hin). cbv zeta. rewrite Hs.
  unfold retrieved_memory_of. rewrite Hm. reflexivity.
Qed.

Lemma left_out_records_dropped_witness :
  memory_text_of sample_batch = Ok ("User loves jazz" +:+ nl +:+ "User is anxious") /\
  (retrieve_memory_node sample_services (state0 "hello") empty_world).1 =
    Ok {[ "input" := "hello";
          "retrieved_memory" := "User loves jazz" +:+ nl +:+ "User is anxious";
          "llm1_prompt_instructions" := "" ]}.
Proof.
  apply (left_out_records_dropped sample_services (state0 "hello") empty_world "hello"
           sample_batch ["User loves jazz"; "User is anxious"]).
  - reflexivity.
  - reflexivity.
  - unfold sample_batch.
    apply extracts_drop; [apply left_out_not_dict; reflexivity |].
    apply extracts_keep; [eapply well_shaped; reflexivity |].
    apply extracts_drop; [eapply left_out_text; reflexivity |].
    apply extracts_drop; [apply left_out_not_dict; reflexivity |].
    apply extracts_keep; [eapply well_shaped; reflexivity |].
    apply extracts_nil.
Defined.





(** X5: a batch in which no record is well shaped and none chokes, such as
    any batch of bare texts, yields the no-related-memory text, however
    many records it has. *)
Theorem left_out_batch_gives_no_memory svc (state : GraphState) w u rs :
  state !! "input" = Some u ->
  search_memory svc w u = Ok rs ->
  Forall LeftOut rs ->
  (retrieve_memory_node svc state w).1 =
    Ok {[ "input" := u; "retrieved_memory" := no_memory;
          "llm1_prompt_instructions" := "" ]}.
Proof.
  intros Hin Hs Hrs.
  assert (He : Extracts rs []).
  { clear Hs. induction Hrs; [apply extracts_nil | apply extracts_drop; assumption]. }
  rewrite (retrieve_memory_node_run svc state u w Hin). cbv zeta. rewrite Hs.
  unfold retrieved_memory_of. rewrite (extracts_memory_text _ _ He). reflexivity.
Qed.

Lemma left_out_batch_gives_no_memory_witness :
  (retrieve_memory_node
     {| search_memory := fun _ _ => Ok [PyStr "User loves jazz"; PyStr "User is anxious"; PyInt 3];
        create_memory := fun _ _ => None; complete := sample_complete |}
     (state0 "hello") empty_world).1 =
    Ok {[ "input" := "hello"; "retrieved_memory" := no_memory;
          "llm1_prompt_instructions" := "" ]}.
Proof.
  apply (left_out_batch_gives_no_memory _ (state0 "hello") empty_world "hello"
           [PyStr "User loves jazz"; PyStr "User is anxious"; PyInt 3]).
  - reflexivity.
  - reflexivity.
  - repeat constructor.
Defined.

Lemma join_empty_texts k : join nl (replicate (S k) "") = newlines k.
Proof.
  induction k as [|k IH]; [reflexivity |].
  change (join nl (replicate (S (S k)) "")) with ("" +:+ nl +:+ join nl (replicate (S k) "")).
  rewrite IH. reflexivity.
Qed.

(** X6: empty texts do not always give the no-related-memory text: a batch
    of two or more well-shaped records whose texts are all empty makes the
    node return a text of line breaks, one fewer than the records, not the
    no-related-memory text. *)
Theorem empty_texts_give_line_breaks svc (state : GraphState) w u rs (n : nat) :
  state !! "input" = Some u ->
  search_memory svc w u = Ok rs ->
  Forall (fun r => WellShaped r "") rs ->
  length rs = S (S n) ->
  (retrieve_memory_node svc state w).1 =
    Ok {[ "input" := u; "retrieved_memory" := newlines (S n);
          "llm1_prompt_instructions" := "" ]}
  /\ newlines (S n) <> no_memory.
Proof.
  intros Hin Hs Hrs Hlen. split; [| discriminate].
  assert (He : Extracts rs (replicate (length rs) "")).
  { clear Hs Hlen. induction Hrs; simpl; [apply extracts_nil |].
    apply extracts_keep; assumption. }
  rewrite (retrieve_memory_node_run svc state u w Hin). cbv zeta. rewrite Hs.
  unfold retrieved_memory_of. rewrite (extracts_memory_text _ _ He), Hlen.
  rewrite join_empty_texts. reflexivity.
Qed.

Lemma empty_texts_give_line_breaks_witness :
  (retrieve_memory_node
     {| search_memory := fun _ _ => Ok [record_of ""; record_of ""; record_of ""];
        create_memory := fun _ _ => None; complete := sample_complete |}
     (state0 "hello") empty_world).1 =
    Ok {[ "input" := "hello"; "retrieved_memory" := nl +:+ nl;
          "llm1_prompt_instructions" := "" ]}
  /\ newlines 2 <> no_memory.
Proof.
  apply (empty_texts_give_line_breaks _ (state0 "hello") empty_world "hello"
           [record_of ""; record_of ""; record_of ""] 1).
  - reflexivity.
  - reflexivity.
  - repeat constructor; (eapply well_shaped; reflexivity).
  - reflexivity.
Defined.

(** X24: the stored template can be read back for the reply when the
    input is known, but not for the pair: an input that ends in a line
    break and the persona's label followed by more text is stored as the
    same content as the shorter input with that text put before the reply. *)
Theorem stored_turn_reads_back (a b c : string) :
  (forall r r', stored_turn a r = stored_turn a r' -> r = r') /\
  stored_turn (a +:+ nl +:+ "ひびき: " +:+ b) c =
    stored_turn a (b +:+ nl +:+ "ひびき: " +:+ c).
Proof.
  split.
  - intros r r' H. unfold stored_turn in H.
    repeat (apply String.app_inj in H). exact H.
  - unfold stored_turn. rewrite !str_app_assoc. reflexivity.
Qed.

(** ** The turn and the page around it *)

Section Page.

Context (svc : Services).

Lemma occurs_in_here s b : occurs_in s (s +:+ b).
Proof. exists "", b. reflexivity. Qed.

Lemma occurs_in_after a s t : occurs_in s t -> occurs_in s (a +:+ t).
Proof.
  intros [x [y ->]]. exists (a +:+ x), y. rewrite str_app_assoc. reflexivity.
Qed.

Lemma guidance_prompt_carries u m :
  occurs_in u (guidance_prompt u m) /\ occurs_in m (guidance_prompt u m).
Proof.
  unfold guidance_prompt. split.
  - apply occurs_in_after, occurs_in_here.
  - do 3 apply occurs_in_after. apply occurs_in_here.
Qed.

Lemma chat_prompt_carries i m u :
  occurs_in i (chat_prompt i m u) /\ occurs_in m (chat_prompt i m u) /\
  occurs_in u (chat_prompt i m u).
Proof.
  unfold chat_prompt. repeat split.
  - apply occurs_in_after, occurs_in_here.
  - do 3 apply occurs_in_after. apply occurs_in_here.
  - do 5 apply occurs_in_after. apply occurs_in_here.
Qed.

(** X7: in every run that reaches generation, the planning prompt holds
    the input and the retrieved text verbatim, and the generation prompt
    holds the planning call's answer, the same retrieved text and the
    input verbatim. *)
Theorem prompts_carry_upstream_text (u : string) (w : World) (cp cg : LLMCall) :
  new_llm_calls w (Graph.invoke (graph svc) (state0 u) w).2 = [cp; cg] ->
  exists rs instructions,
    Search u (Ok rs) ∈ new_store_calls w (Graph.invoke (graph svc) (state0 u) w).2 /\
    answer cp = Ok instructions /\
    occurs_in u (prompt cp) /\
    occurs_in (retrieved_memory_of rs) (prompt cp) /\
    occurs_in instructions (prompt cg) /\
    occurs_in (retrieved_memory_of rs) (prompt cg) /\
    occurs_in u (prompt cg).
Proof.
  destruct (invoke_graph_outcome svc u w) as [o Ho].
  unfold new_llm_calls, new_store_calls.
  rewrite (ra_llm_calls _ _ _ _ _ Ho), (ra_store_calls _ _ _ _ _ Ho), !drop_app_length.
  intros H.
  destruct o as [e|rs e|rs i e|rs i rp e|rs i rp]; simpl in H; try discriminate H;
    injection H as <- <-; exists rs, i; simpl;
    destruct (guidance_prompt_carries u (retrieved_memory_of rs)) as [Hu Hm];
    destruct (chat_prompt_carries i (retrieved_memory_of rs) u) as (Hi & Hm' & Hu');
    (split; [set_solver |]); repeat split; assumption.
Qed.

Lemma chat_turn_idle user_input w :
  typed user_input = None ->
  chat_turn svc user_input w = (Ok tt, with_var_result None (with_var_reply None w)).
Proof.
  intros H. unfold chat_turn, fresh_names, mbind, M_bind, modify.
  destruct user_input as [text|]; [| reflexivity].
  simpl in H. destruct (truthy text); [discriminate H | reflexivity].
Qed.

(** X8: a turn on a text searches once, with the raw text as query; it
    calls the provider at most twice and only when the search returned;
    and it invokes the create at most once, only after both provider calls
    answered, with the text paired with the second answer. *)
Theorem turn_call_discipline (text : string) (w : World) :
  truthy text = true ->
  exists found rest,
    new_store_calls w (chat_turn svc (Some text) w).2 = Search text found :: rest /\
    length (new_llm_calls w (chat_turn svc (Some text) w).2) <= 2 /\
    (forall e, found = Raise e ->
       rest = [] /\ new_llm_calls w (chat_turn svc (Some text) w).2 = []) /\
    (rest = [] \/
     exists rs instructions response failure,
       rest = [Create (stored_turn text response) failure] /\
       new_llm_calls w (chat_turn svc (Some text) w).2 =
         [planning_call text rs (Ok instructions);
          generation_call text rs instructions (Ok response)]).
Proof.
  intros Htext.
  destruct (chat_turn_outcome svc text w Htext) as [o [_ Hturn]].
  rewrite (new_store_calls_turn _ _ _ _ _ Hturn), (new_llm_calls_turn _ _ _ _ _ Hturn).
  destruct o as [e|rs e|rs i e|rs i rp e|rs i rp]; simpl; do 2 eexists;
    (split; [reflexivity |]); (split; [lia |]);
    (split; [intros e' He'; first [discriminate He' | split; reflexivity] |]);
    first [left; reflexivity | right; do 4 eexists; split; reflexivity].
Qed.

(** X9: a turn on a text that ends normally ran both provider calls and
    stored one turn: the second answer is the reply appended to the
    conversation and shown, the same reply is what the stored content pairs
    with the text, and the code block shows the first answer. *)
Theorem completed_turn_pairs (text : string) (w : World) :
  truthy text = true ->
  (chat_turn svc (Some text) w).1 = Ok tt ->
  exists rs instructions reply,
    new_llm_calls w (chat_turn svc (Some text) w).2 =
      [planning_call text rs (Ok instructions);
       generation_call text rs instructions (Ok reply)] /\
    messages (chat_turn svc (Some text) w).2 =
      messages w ++ [HumanMessage text; AIMessage reply] /\
    memories (chat_turn svc (Some text) w).2 = memories w ++ [stored_turn text reply] /\
    new_ui w (chat_turn svc (Some text) w).2 =
      [ChatMessage "🧑‍💻" text; ChatMessage "🤖" reply;
       StMarkdown "### ✉️ LLM2からの指示:"; StCode instructions].
Proof.
  intros Htext Hok.
  destruct (chat_turn_outcome svc text w Htext) as [o [_ Hturn]].
  rewrite (ta_result _ _ _ _ _ Hturn) in Hok.
  rewrite (new_llm_calls_turn _ _ _ _ _ Hturn).
  unfold new_ui.
  rewrite (ta_messages _ _ _ _ _ Hturn), (ta_memories _ _ _ _ _ Hturn),
    (ta_ui _ _ _ _ _ Hturn), drop_app_length.
  destruct o as [e|rs e|rs i e|rs i rp e|rs i rp]; try discriminate Hok.
  exists rs, i, rp. repeat split.
Qed.

(** X10: whatever the services do, a turn on a text ends normally or with
    [NameError], never with an exception of a service; the code block of
    the instructions is drawn exactly when it ends normally, and the text
    of the [get] default is then not what it shows unless the provider
    answered so. *)
Theorem turn_ends_normally_or_NameError (text : string) (w : World) :
  truthy text = true ->
  ((chat_turn svc (Some text) w).1 = Ok tt /\
   exists c instructions,
     new_llm_calls w (chat_turn svc (Some text) w).2 !! 0 = Some c /\
     answer c = Ok instructions /\
     StCode instructions ∈ new_ui w (chat_turn svc (Some text) w).2 /\
     forall t, StCode t ∈ new_ui w (chat_turn svc (Some text) w).2 -> t = instructions)
  \/
  ((chat_turn svc (Some text) w).1 = Raise NameError /\
   forall t, StCode t ∉ new_ui w (chat_turn svc (Some text) w).2).
Proof.
  intros Htext.
  destruct (chat_turn_outcome svc text w Htext) as [o [_ Hturn]].
  rewrite (ta_result _ _ _ _ _ Hturn), (new_llm_calls_turn _ _ _ _ _ Hturn).
  unfold new_ui. rewrite (ta_ui _ _ _ _ _ Hturn), drop_app_length.
  destruct o as [e|rs e|rs i e|rs i rp e|rs i rp]; simpl;
    try (right; split; [reflexivity |]; intros t Ht;
         repeat (apply elem_of_cons in Ht as [Ht|Ht]; [discriminate Ht |]);
         apply elem_of_nil in Ht; exact Ht).
  left. split; [reflexivity |]. exists (planning_call text rs (Ok i)), i.
  split; [reflexivity |]. split; [reflexivity |].
  unfold turn_ui. simpl. split; [set_solver |].
  intros t Ht.
  repeat (apply elem_of_cons in Ht as [Ht|Ht]; [try discriminate Ht |]).
  - injection Ht as ->. reflexivity.
  - apply elem_of_nil in Ht. destruct Ht.
Qed.

End Page.

Lemma turn_call_discipline_witness :
  exists found rest,
    new_store_calls empty_world (chat_turn jazz_services (Some "hi") empty_world).2
      = Search "hi" found :: rest /\
    length (new_llm_calls empty_world (chat_turn jazz_services (Some "hi") empty_world).2) <= 2 /\
    (forall e, found = Raise e ->
       rest = [] /\
       new_llm_calls empty_world (chat_turn jazz_services (Some "hi") empty_world).2 = []) /\
    (rest = [] \/
     exists rs instructions response failure,
       rest = [Create (stored_turn "hi" response) failure] /\
       new_llm_calls empty_world (chat_turn jazz_services (Some "hi") empty_world).2 =
         [planning_call "hi" rs (Ok instructions);
          generation_call "hi" rs instructions (Ok response)]).
Proof.
  apply (turn_call_discipline jazz_services "hi" empty_world). reflexivity.
Defined.


(** ** Reruns of the page *)

Section Reruns.

Context (svc : Services).

Lemma for_each_show_message l w :
  for_each show_message l w = (Ok tt, with_ui (fun u => u ++ map bubble l) w).
Proof.
  revert w. induction l as [|msg l IH]; intros w.
  - destruct w. unfold with_ui. simpl. rewrite app_nil_r. reflexivity.
  - simpl. unfold mbind, M_bind.
    assert (Hm : show_message msg w = (Ok tt, with_ui (fun u => u ++ [bubble msg]) w))
      by (destruct msg; reflexivity).
    rewrite Hm, IH. unfold with_ui. simpl. rewrite <- app_assoc. reflexivity.
Qed.

Lemma page_tail_idle user_input w :
  typed user_input = None ->
  page_tail svc user_input w =
    (Ok (debug_panel w),
     with_var_result None (with_var_reply None (after_history w))).
Proof.
  intros H. unfold page_tail, show_history, mbind, M_bind.
  rewrite for_each_show_message. fold (after_history w).
  rewrite (chat_turn_idle svc user_input _ H). reflexivity.
Qed.

Lemma page_tail_turn text w :
  truthy text = true ->
  exists o,
    turn_as text (after_history w) o
      (chat_turn svc (Some text) (after_history w)).1 (page_tail svc (Some text) w).2 /\
    (page_tail svc (Some text) w).1 =
      match turn_result o with
      | Ok _ => Ok (debug_panel (page_tail svc (Some text) w).2)
      | Raise e => Raise e
      end.
Proof.
  intros Htext.
  destruct (chat_turn_outcome svc text (after_history w) Htext) as [o [_ Hturn]].
  exists o. unfold page_tail, show_history, mbind, M_bind.
  rewrite for_each_show_message. fold (after_history w).
  pose proof (ta_result _ _ _ _ _ Hturn) as Hr.
  destruct (chat_turn svc (Some text) (after_history w)) as [r w'].
  simpl in Hr, Hturn. subst r.
  destruct (turn_result o) as [[]|e] eqn:Ho; simpl; (split; [exact Hturn | reflexivity]).
Qed.

Lemma filter_bubbles_history l : filter (fun ev => is_bubble ev = true) (map bubble l) = map bubble l.
Proof.
  induction l as [|msg l IH]; [reflexivity |].
  simpl. rewrite filter_cons. destruct msg; simpl; rewrite IH; reflexivity.
Qed.

Lemma filter_bubbles_turn text o :
  filter (fun ev => is_bubble ev = true) (turn_ui text o) =
    [ChatMessage "🧑‍💻" text; ChatMessage "🤖" (reply_of o)].
Proof. destruct o; reflexivity. Qed.

(** X11: at the end of every rerun the chat bubbles drawn on the page are
    the conversation in the session, message for message and in order,
    whether the rerun had no input, completed a turn or fell back. *)
Theorem page_shows_the_conversation (user_input : option string) (w : World) :
  filter (fun ev => is_bubble ev = true) (new_ui w (page_tail svc user_input w).2)
  = map bubble (messages (page_tail svc user_input w).2).
Proof.
  unfold new_ui. destruct (typed user_input) as [text|] eqn:Hi.
  - assert (Htext : truthy text = true /\ user_input = Some text).
    { destruct user_input as [t|]; [| discriminate Hi]. simpl in Hi.
      destruct (truthy t) eqn:Ht; [| discriminate Hi]. injection Hi as <-. auto. }
    destruct Htext as [Htext ->].
    destruct (page_tail_turn text w Htext) as [o [Hturn _]].
    rewrite (ta_ui _ _ _ _ _ Hturn), (ta_messages _ _ _ _ _ Hturn). simpl.
    rewrite <- app_assoc, drop_app_length, filter_app, filter_bubbles_history,
      filter_bubbles_turn, map_app. reflexivity.
  - rewrite (page_tail_idle user_input w Hi). simpl.
    rewrite drop_app_length. apply filter_bubbles_history.
Qed.






(** X14: when the search of a turn returns records, the debug panel shows
    them, the empty list excepted: in the same rerun if the turn ends
    normally, and otherwise, the rerun ending with [NameError] before the
    panel, in the next rerun without input. *)
Theorem debug_panel_shows_search (text : string) (w : World) (rs : list pyval) :
  truthy text = true ->
  Search text (Ok rs) ∈ new_store_calls w (page_tail svc (Some text) w).2 ->
  debug_panel (page_tail svc (Some text) w).2 =
    match rs with [] => None | _ :: _ => Some rs end /\
  ((page_tail svc (Some text) w).1 = Ok (debug_panel (page_tail svc (Some text) w).2) \/
   (page_tail svc (Some text) w).1 = Raise NameError /\
   (page_tail svc None (page_tail svc (Some text) w).2).1 =
     Ok (debug_panel (page_tail svc (Some text) w).2)).
Proof.
  intros Htext Hs.
  destruct (page_tail_turn text w Htext) as [o [Hturn Hres]].
  unfold new_store_calls in Hs.
  rewrite (ta_store_calls _ _ _ _ _ Hturn) in Hs. simpl in Hs.
  rewrite drop_app_length in Hs.
  rewrite Hres, (page_tail_idle None _ eq_refl). simpl.
  unfold debug_panel. rewrite (ta_debug _ _ _ _ _ Hturn).
  destruct o as [e|rs' e|rs' i e|rs' i rp e|rs' i rp]; simpl in Hs;
    repeat (apply elem_of_cons in Hs as [Hs|Hs]; [try discriminate Hs |]);
    try (apply elem_of_nil in Hs; destruct Hs);
    injection Hs as <-; simpl; (split; [destruct rs; reflexivity |]); auto.
Qed.

(** X15: when the search of a turn raises, the rerun ends with [NameError]
    before the panel, and the session keeps the records of an earlier
    search: the next rerun without input shows the panel as it was before
    the turn. *)
Theorem debug_panel_stale_after_search_failure (text : string) (w : World) (e : exn) :
  truthy text = true ->
  Search text (Raise e) ∈ new_store_calls w (page_tail svc (Some text) w).2 ->
  (page_tail svc (Some text) w).1 = Raise NameError /\
  (page_tail svc None (page_tail svc (Some text) w).2).1 = Ok (debug_panel w).
Proof.
  intros Htext Hs.
  destruct (page_tail_turn text w Htext) as [o [Hturn Hres]].
  unfold new_store_calls in Hs.
  rewrite (ta_store_calls _ _ _ _ _ Hturn) in Hs. simpl in Hs.
  rewrite drop_app_length in Hs.
  rewrite Hres, (page_tail_idle None _ eq_refl). simpl.
  unfold debug_panel. rewrite (ta_debug _ _ _ _ _ Hturn).
  destruct o as [e'|rs' e'|rs' i e'|rs' i rp e'|rs' i rp]; simpl in Hs;
    repeat (apply elem_of_cons in Hs as [Hs|Hs]; [try discriminate Hs |]);
    try (apply elem_of_nil in Hs; destruct Hs).
  split; reflexivity.
Qed.

End Reruns.

Lemma completed_turn_pairs_witness :
  exists rs instructions reply,
    new_llm_calls empty_world (chat_turn jazz_services (Some "hi") empty_world).2 =
      [planning_call "hi" rs (Ok instructions);
       generation_call "hi" rs instructions (Ok reply)] /\
    messages (chat_turn jazz_services (Some "hi") empty_world).2 =
      messages empty_world ++ [HumanMessage "hi"; AIMessage reply] /\
    memories (chat_turn jazz_services (Some "hi") empty_world).2 =
      memories empty_world ++ [stored_turn "hi" reply] /\
    new_ui empty_world (chat_turn jazz_services (Some "hi") empty_world).2 =
      [ChatMessage "🧑‍💻" "hi"; ChatMessage "🤖" reply;
       StMarkdown "### ✉️ LLM2からの指示:"; StCode instructions].
Proof.
  apply (completed_turn_pairs jazz_services "hi" empty_world); reflexivity.
Defined.

Lemma turn_ends_normally_or_NameError_witness :
  (chat_turn provider_down (Some "hi") empty_world).1 = Raise NameError /\
  forall t, StCode t ∉ new_ui empty_world (chat_turn provider_down (Some "hi") empty_world).2.
Proof.
  destruct (turn_ends_normally_or_NameError provider_down "hi" empty_world eq_refl)
    as [[H _]|H]; [discriminate H | exact H].
Defined.

Lemma prompts_carry_upstream_text_witness :
  exists rs instructions,
    Search "hi" (Ok rs)
      ∈ new_store_calls empty_world
          (Graph.invoke (graph jazz_services) (state0 "hi") empty_world).2 /\
    Ok "plan" = Ok instructions /\
    occurs_in "hi" (guidance_prompt "hi" no_memory) /\
    occurs_in (retrieved_memory_of rs) (guidance_prompt "hi" no_memory) /\
    occurs_in instructions (chat_prompt "plan" no_memory "hi") /\
    occurs_in (retrieved_memory_of rs) (chat_prompt "plan" no_memory "hi") /\
    occurs_in "hi" (chat_prompt "plan" no_memory "hi").
Proof.
  apply (prompts_carry_upstream_text jazz_services "hi" empty_world
           (planning_call "hi" [PyStr "User loves jazz"] (Ok "plan"))
           (generation_call "hi" [PyStr "User loves jazz"] "plan" (Ok "reply"))).
  reflexivity.
Defined.

Lemma debug_panel_shows_search_witness :
  debug_panel (page_tail provider_down (Some "hi") empty_world).2 =
    Some [record_of "User loves jazz"] /\
  ((page_tail provider_down (Some "hi") empty_world).1 =
     Ok (debug_panel (page_tail provider_down (Some "hi") empty_world).2) \/
   (page_tail provider_down (Some "hi") empty_world).1 = Raise NameError /\
   (page_tail provider_down None (page_tail provider_down (Some "hi") empty_world).2).1 =
     Ok (debug_panel (page_tail provider_down (Some "hi") empty_world).2)).
Proof.
  apply (debug_panel_shows_search provider_down "hi" empty_world
           [record_of "User loves jazz"]).
  - reflexivity.
  - vm_compute. left.
Defined.

Lemma debug_panel_stale_after_search_failure_witness :
  let w := (page_tail flaky_search (Some "first") empty_world).2 in
  debug_panel w = Some [record_of "User loves jazz"] /\
  (page_tail flaky_search (Some "second") w).1 = Raise NameError /\
  (page_tail flaky_search None (page_tail flaky_search (Some "second") w).2).1 =
    Ok (debug_panel w).
Proof.
  intros w. split; [reflexivity |].
  apply (debug_panel_stale_after_search_failure flaky_search "second" w StoreUnavailable).
  - reflexivity.
  - vm_compute. left.
Defined.

(** ** Accounts and the head of the script *)

Section Head.

Context (acc : Accounts).

Ltac run_script :=
  unfold script_to_tools, script_head, auth_gate, sign_in, sign_up, sign_out,
    langmem_block, init_langmem_tools, try_Exception, get_user_attr, get_user,
    get_langmem_initialized, get_tools, init_session_state, call_auth, notice,
    set_user, set_messages, set_langmem_initialized, set_tools, cache_hit,
    cache_keep, setup_store, st_rerun, st_stop, with_session,
    new_notices, new_auth_calls, mbind, Script_bind, mret, Script_ret.

(** X16: on a session in which no user is logged in (the key "user" is not
    set, as in a first run, or holds [None]), the script ends with
    [AttributeError] at its sidebar line, before the session keys are
    initialised: the session is untouched, only the title is drawn, and no
    account call is made, whatever was clicked. *)
Theorem script_head_faults_without_user (inputs : Inputs) (p : Page) :
  (forall u, s_user (session p) <> Some (Some u)) ->
  (script_head acc inputs p).1 = Fault AttributeError /\
  session (script_head acc inputs p).2 = session p /\
  new_notices p (script_head acc inputs p).2 = [PageTitle] /\
  new_auth_calls p (script_head acc inputs p).2 = [].
Proof.
  intros Hu. destruct p as [[su sm sl stl] ns ac ca]. simpl in Hu.
  destruct su as [[u|]|]; [destruct (Hu u); reflexivity | |];
    run_script; simpl; rewrite drop_app_length, drop_ge by lia; repeat split.
Qed.

(** X17: the log-in form is dead code: in no run does the head of the
    script draw the form, stop at [st.stop()], or call sign-up or sign-in;
    the only account call it can make is the sign-out. *)
Theorem login_form_never_shown (inputs : Inputs) (p : Page) :
  (script_head acc inputs p).1 <> Stop /\
  (AuthForm ∉ new_notices p (script_head acc inputs p).2) /\
  (forall c, c ∈ new_auth_calls p (script_head acc inputs p).2 -> c = SignOut).
Proof.
  destruct p as [[su sm sl stl] ns ac ca].
  destruct su as [[u|]|].
  2,3: run_script; simpl; rewrite drop_app_length, drop_ge by lia;
       (split; [discriminate |]); split;
       [intros H; apply list_elem_of_singleton in H; discriminate H
       | intros c H; apply elem_of_nil in H; destruct H].
  run_script. simpl. destruct (logout_clicked inputs).
  - destruct (auth_sign_out acc) as [e|]; simpl;
      rewrite <- ?app_assoc, !drop_app_length; (split; [discriminate |]); split;
      try (intros H; repeat (apply elem_of_cons in H as [H|H]; [discriminate H |]);
           apply elem_of_nil in H; exact H);
      intros c H; apply list_elem_of_singleton in H; exact H.
  - simpl. rewrite <- ?app_assoc, drop_app_length, drop_ge by lia.
    (split; [discriminate |]); split.
    + intros H; repeat (apply elem_of_cons in H as [H|H]; [discriminate H |]).
      apply elem_of_nil in H. exact H.
    + intros c H. apply elem_of_nil in H. destruct H.
Qed.

(** X18: a log-out that the service accepts clears the user, empties the
    conversation, resets the flag and reruns; and from then on every run
    of the script ends with [AttributeError] at its sidebar line, whatever
    is clicked. *)
Theorem logout_then_every_run_faults (inputs inputs' : Inputs) (p : Page) (u : User) :
  s_user (session p) = Some (Some u) ->
  logout_clicked inputs = true ->
  auth_sign_out acc = None ->
  (script_head acc inputs p).1 = Rerun /\
  s_user (session (script_head acc inputs p).2) = Some None /\
  s_messages (session (script_head acc inputs p).2) = Some [] /\
  s_langmem_initialized (session (script_head acc inputs p).2) = Some false /\
  (script_head acc inputs' (script_head acc inputs p).2).1 = Fault AttributeError.
Proof.
  intros Hu Hc Ho. destruct p as [[su sm sl stl] ns ac ca]. simpl in Hu. subst su.
  run_script. simpl. rewrite Hc, Ho. simpl. repeat split.
Qed.

(** X19: a sign-in that fails, by an answer without user or by an
    exception of the service, changes nothing in the session and ends
    normally after one error message; the conversation and the user stay
    as they were. *)
Theorem failed_sign_in_changes_nothing (email password : string) (p : Page) :
  (forall r u, auth_sign_in_with_password acc email password = Ok r ->
               response_user r <> Some u) ->
  (sign_in acc email password p).1 = Done tt /\
  session (sign_in acc email password p).2 = session p /\
  new_auth_calls p (sign_in acc email password p).2 = [SignInWithPassword email password] /\
  exists n,
    new_notices p (sign_in acc email password p).2 = [n] /\
    (n = StErrorText
           "ログインに失敗しました。メールアドレスまたはパスワードを確認してください。" \/
     exists e, n = StErrorExc "ログインエラー: " (Raised e)).
Proof.
  intros Hf. destruct p as [[su sm sl stl] ns ac ca]. run_script. simpl.
  destruct (auth_sign_in_with_password acc email password) as [[[u|] sess]|e] eqn:Ha; simpl.
  - destruct (Hf _ u eq_refl). reflexivity.
  - rewrite !drop_app_length. repeat split. eexists. split; [reflexivity |]. left. reflexivity.
  - rewrite !drop_app_length. repeat split. eexists. split; [reflexivity |]. right. eauto.
Qed.

(** X20: a sign-in that succeeds for a user whose address is
    [name @ domain] logs the user in, replaces the conversation by one
    greeting that names [name], resets the flag so that the tools are
    fetched anew, and reruns. *)
Theorem sign_in_greets_by_name (email password name domain sess : string) (u : User)
    (p : Page) :
  auth_sign_in_with_password acc email password =
    Ok {| response_user := Some u; response_session := sess |} ->
  user_email u = name +:+ "@" +:+ domain ->
  str_has "@"%char name = false ->
  (sign_in acc email password p).1 = Rerun /\
  s_user (session (sign_in acc email password p).2) = Some (Some u) /\
  s_messages (session (sign_in acc email password p).2) =
    Some [AIMessage ("おかえりなさい、" +:+ name +:+ "さん。今日はどんなお話をする？")] /\
  s_langmem_initialized (session (sign_in acc email password p).2) = Some false /\
  s_tools (session (sign_in acc email password p).2) = s_tools (session p).
Proof.
  intros Ha He Hn. destruct p as [[su sm sl stl] ns ac ca]. run_script. simpl.
  rewrite Ha. simpl.
  assert (Hb : before_at (user_email u) = name).
  { rewrite He. clear -Hn. induction name as [|c name IH]; simpl.
    - reflexivity.
    - simpl in Hn. apply orb_false_iff in Hn as [Hc Hn].
      change (String c name +:+ "@" +:+ domain) with (String c (name +:+ "@" +:+ domain)).
      simpl. rewrite Hc, (IH Hn). reflexivity. }
  rewrite Hb. repeat split.
Qed.

(** X21: a sign-up that succeeds logs the user in and sets the
    conversation to the welcome message, but unlike the sign-in it neither
    resets the flag nor reruns; one that fails, by an answer without user
    or by an exception, changes nothing in the session. *)
Theorem sign_up_outcomes (email password : string) (p : Page) :
  (sign_up acc email password p).1 = Done tt /\
  s_langmem_initialized (session (sign_up acc email password p).2) =
    s_langmem_initialized (session p) /\
  s_tools (session (sign_up acc email password p).2) = s_tools (session p) /\
  match auth_sign_up acc email password with
  | Ok {| response_user := Some u |} =>
      s_user (session (sign_up acc email password p).2) = Some (Some u) /\
      s_messages (session (sign_up acc email password p).2) =
        Some [AIMessage "こんにちは、新しい友達！今日はどんな気分かな？"]
  | _ => session (sign_up acc email password p).2 = session p
  end.
Proof.
  destruct p as [[su sm sl stl] ns ac ca]. run_script. simpl.
  destruct (auth_sign_up acc email password) as [[[u|] sess]|e]; simpl; repeat split.
Qed.

(** X22: the sign-out is all or nothing: when the service raises, the
    session is untouched (the user stays logged in, the conversation
    stays), one error is shown and the script goes on; otherwise user,
    conversation and flag are all reset and the script reruns. *)
Theorem sign_out_all_or_nothing (p : Page) :
  match auth_sign_out acc with
  | Some e =>
      (sign_out acc p).1 = Done tt /\
      session (sign_out acc p).2 = session p /\
      new_notices p (sign_out acc p).2 = [StErrorExc "ログアウトエラー: " (Raised e)]
  | None =>
      (sign_out acc p).1 = Rerun /\
      session (sign_out acc p).2 =
        {| s_user := Some None; s_messages := Some [];
           s_langmem_initialized := Some false; s_tools := s_tools (session p) |} /\
      new_notices p (sign_out acc p).2 = [StSuccess "ログアウトしました。"]
  end.
Proof.
  destruct p as [[su sm sl stl] ns ac ca]. run_script. simpl.
  destruct (auth_sign_out acc) as [e|]; simpl; rewrite drop_app_length; repeat split.
Qed.

Lemma script_head_keeps_tools_bound (inputs : Inputs) (p : Page) :
  tools_bound (session p) -> tools_bound (session (script_head acc inputs p).2).
Proof.
  intros Hb. destruct p as [[su sm sl stl] ns ac ca]. unfold tools_bound in *. simpl in Hb.
  destruct su as [[u|]|]; [| run_script; exact Hb | run_script; exact Hb].
  run_script. simpl.
  destruct (logout_clicked inputs);
    [destruct (auth_sign_out acc) as [e|]; simpl |];
    try (destruct sl as [[|]|]; simpl; first [exact Hb | discriminate]).
Qed.

Lemma langmem_block_binds_tools (p : Page) :
  tools_bound (session p) ->
  tools_bound (session (langmem_block acc p).2) /\
  forall tools, (langmem_block acc p).1 = Done tools ->
    exists u,
      s_user (session (langmem_block acc p).2) = Some (Some u) /\
      tools = (user_id u, "memories") /\
      s_tools (session (langmem_block acc p).2) = Some tools.
Proof.
  intros Hb. destruct p as [[su sm sl stl] ns ac ca]. unfold tools_bound in *. simpl in Hb.
  run_script. simpl. destruct sl as [[|]|]; simpl.
  - destruct (Hb eq_refl) as [u [-> ->]]. simpl.
    split; [intros _; exists u; split; reflexivity |].
    intros tools [= <-]. exists u. repeat split.
  - destruct su as [[u|]|]; simpl;
      [| split; [discriminate | intros tools Hd; discriminate Hd]
       | split; [discriminate | intros tools Hd; discriminate Hd]].
    case_bool_decide; simpl.
    + split; [discriminate |]. intros tools [= <-]. exists u. repeat split.
    + destruct (store_setup acc (user_id u)); simpl.
      * split; [discriminate | intros tools Hd; discriminate Hd].
      * split; [intros _; exists u; split; reflexivity |].
        intros tools [= <-]. exists u. repeat split.
  - split; [discriminate | intros tools Hd; discriminate Hd].
Qed.

(** X23: the tools match the user: if in the session the flag is only set
    when the kept tools are bound to the namespace of the user logged in,
    then after the script has run up to the tools this still holds,
    however the run ends; and when the run gets there, the tools it uses
    are bound to the namespace made of the logged-in user's id and
    "memories". *)
Theorem tools_follow_the_user (inputs : Inputs) (p : Page) :
  tools_bound (session p) ->
  tools_bound (session (script_to_tools acc inputs p).2) /\
  forall tools, (script_to_tools acc inputs p).1 = Done tools ->
    exists u,
      s_user (session (script_to_tools acc inputs p).2) = Some (Some u) /\
      tools = (user_id u, "memories") /\
      s_tools (session (script_to_tools acc inputs p).2) = Some tools.
Proof.
  intros Hb. pose proof (script_head_keeps_tools_bound inputs p Hb) as Hh.
  unfold script_to_tools, mbind, Script_bind.
  destruct (script_head acc inputs p) as [[[]|e| |] p1]; simpl in Hh |- *;
    try (split; [exact Hh | intros tools Hd; discriminate Hd]).
  apply langmem_block_binds_tools, Hh.
Qed.

End Head.

Lemma script_head_faults_without_user_witness :
  (script_head accounts_ok login_click first_page).1 = Fault AttributeError /\
  session (script_head accounts_ok login_click first_page).2 = session first_page /\
  new_notices first_page (script_head accounts_ok login_click first_page).2 = [PageTitle] /\
  new_auth_calls first_page (script_head accounts_ok login_click first_page).2 = [].
Proof.
  apply (script_head_faults_without_user accounts_ok login_click first_page).
  intros u H. discriminate H.
Defined.

Lemma logout_then_every_run_faults_witness :
  let p' := (script_head accounts_ok logout_click (page_of aya)).2 in
  (script_head accounts_ok logout_click (page_of aya)).1 = Rerun /\
  s_user (session p') = Some None /\
  s_messages (session p') = Some [] /\
  s_langmem_initialized (session p') = Some false /\
  (script_head accounts_ok login_click p').1 = Fault AttributeError.
Proof.
  apply (logout_then_every_run_faults accounts_ok logout_click login_click (page_of aya) aya);
    reflexivity.
Defined.

Lemma failed_sign_in_changes_nothing_witness :
  let p' := (sign_in accounts_down "aya@example.com" "pw" (page_of aya)).2 in
  (sign_in accounts_down "aya@example.com" "pw" (page_of aya)).1 = Done tt /\
  session p' = session (page_of aya) /\
  new_auth_calls (page_of aya) p' = [SignInWithPassword "aya@example.com" "pw"] /\
  exists n,
    new_notices (page_of aya) p' = [n] /\
    (n = StErrorText
           "ログインに失敗しました。メールアドレスまたはパスワードを確認してください。" \/
     exists e, n = StErrorExc "ログインエラー: " (Raised e)).
Proof.
  apply (failed_sign_in_changes_nothing accounts_down "aya@example.com" "pw" (page_of aya)).
  intros r u H. discriminate H.
Defined.

Lemma sign_in_greets_by_name_witness :
  let p' := (sign_in accounts_ok "aya@example.com" "pw" first_page).2 in
  (sign_in accounts_ok "aya@example.com" "pw" first_page).1 = Rerun /\
  s_user (session p') = Some (Some aya) /\
  s_messages (session p') =
    Some [AIMessage ("おかえりなさい、" +:+ "aya" +:+ "さん。今日はどんなお話をする？")] /\
  s_langmem_initialized (session p') = Some false /\
  s_tools (session p') = s_tools (session first_page).
Proof.
  apply (sign_in_greets_by_name accounts_ok "aya@example.com" "pw" "aya" "example.com"
           "session" aya first_page); reflexivity.
Defined.

Lemma tools_follow_the_user_witness :
  let run := script_to_tools accounts_ok no_clicks (page_of aya) in
  tools_bound (session run.2) /\
  forall tools, run.1 = Done tools ->
    exists u,
      s_user (session run.2) = Some (Some u) /\
      tools = (user_id u, "memories") /\
      s_tools (session run.2) = Some tools.
Proof.
  apply (tools_follow_the_user accounts_ok no_clicks (page_of aya)).
  intros H. discriminate H.
Defined.

Example script_reaches_the_tools :
  (script_to_tools accounts_ok no_clicks (page_of aya)).1 = Done ("u-1", "memories") /\
  s_langmem_initialized (session (script_to_tools accounts_ok no_clicks (page_of aya)).2)
    = Some true.
Proof. split; reflexivity. Qed.
